(** * The multus-nic device plugin server (pkg/device_plugin/server/server.go)

    A shallow embedding of the device registry, the filesystem watcher, the
    ListAndWatch / Allocate handlers and the serve-loop restart policy of
    [MultusNicServer], with the properties of the specification stated over
    it.

    Conventions.
    - Go [int] values are [Z]; no operation of the server gets near the
      64-bit range (the counters move by one inside guarded ranges).
    - A Go runtime panic (index out of range, nil dereference) is the
      [Panic] outcome of the [Result] type.
    - Channels and the clock belong to the environment: a goroutine's loop
      is run over the list of outcomes of its successive [select]s (or of
      its successive blocking calls), and what it sends is its output trace.
    - logrus calls do not touch the server; they appear in the output trace
      of the watcher only. *)

From Stdlib Require Import ZArith Lia.
From stdpp Require Import base option list strings gmap pretty.

Local Open Scope string_scope.
Local Open Scope list_scope.
Local Open Scope Z_scope.

(** ** Go runtime *)

Inductive GoPanic : Type :=
| IndexOutOfRange (idx : Z) (len : nat)
| NilDereference.

Inductive Result (A : Type) : Type :=
| Ok (a : A)
| Panic (p : GoPanic).
Arguments Ok {A} a.
Arguments Panic {A} p.

Definition bind {A B : Type} (r : Result A) (k : A -> Result B) : Result B :=
  match r with
  | Ok a => k a
  | Panic p => Panic p
  end.

Notation "x <-! r ;; k" := (bind r (fun x => k))
  (at level 100, r at next level, right associativity).

(** Go's [error] interface value; [None] is [nil]. *)
Definition error : Type := string.

(** [strconv.Itoa]. *)
Definition Itoa (i : Z) : string := pretty i.

(** [strings.Join]. *)
Fixpoint Join (elems : list string) (sep : string) : string :=
  match elems with
  | [] => ""
  | [e] => e
  | e :: rest => e +:+ sep +:+ Join rest sep
  end.

(** ** k8s.io/kubelet/pkg/apis/deviceplugin/v1beta1 *)

Module pluginapi.

Definition Healthy : string := "Healthy".
Definition Unhealthy : string := "Unhealthy".

Record Device : Type := mkDevice { ID : string; Health : string }.

Record ContainerAllocateRequest : Type :=
  mkContainerAllocateRequest { DevicesIDs : list string }.

Record AllocateRequest : Type :=
  mkAllocateRequest { ContainerRequests : list ContainerAllocateRequest }.

Record ContainerAllocateResponse : Type :=
  mkContainerAllocateResponse { Envs : gmap string string }.

Record AllocateResponse : Type :=
  mkAllocateResponse { ContainerResponses : list ContainerAllocateResponse }.

End pluginapi.
Import pluginapi.

(** ** github.com/fsnotify/fsnotify *)

Module fsnotify.

(** [Op] is a [uint32] bit mask: [Create Op = 1 << iota], then [Write],
    [Remove], [Rename], [Chmod]. *)
Definition Create : Z := 1.
Definition Write : Z := 2.
Definition Remove : Z := 4.
Definition Rename : Z := 8.
Definition Chmod : Z := 16.

Record Event : Type := mkEvent { Name : string; Op : Z }.

End fsnotify.
Import fsnotify.

(** ** The server *)

Definition TotalDevicesCount : Z := 40.

(** [devices] is a slice of pointers: [None] is a nil pointer.  The pointers
    stored by [listDevice] are pairwise distinct fresh allocations, so a
    write through [devices[i]] changes entry [i] only.  [notify], [ctx] and
    [srv] are environment (see the conventions above). *)
Record MultusNicServer : Type := mkServer {
  devices : list (option Device);
  nextDevice : Z
}.

(** [NewMultusNicServer]: [make([]*pluginapi.Device, TotalDevicesCount)]. *)
Definition NewMultusNicServer : MultusNicServer :=
  {| devices := replicate (Z.to_nat TotalDevicesCount) None; nextDevice := 0 |}.

(** [devs[i] = d] *)
Definition storeDevice (devs : list (option Device)) (i : Z) (d : Device)
  : Result (list (option Device)) :=
  if (0 <=? i) && (i <? Z.of_nat (length devs))
  then Ok (<[Z.to_nat i := Some d]> devs)
  else Panic (IndexOutOfRange i (length devs)).

(** [devs[i].Health = h] *)
Definition setHealth (devs : list (option Device)) (i : Z) (h : string)
  : Result (list (option Device)) :=
  if (0 <=? i) && (i <? Z.of_nat (length devs))
  then match devs !! Z.to_nat i with
       | Some (Some d) =>
           Ok (<[Z.to_nat i := Some {| ID := ID d; Health := h |}]> devs)
       | _ => Panic NilDereference
       end
  else Panic (IndexOutOfRange i (length devs)).

(** One iteration of the loop of [listDevice]. *)
Definition listDevice_body (next : Z) (devs : list (option Device)) (i : Z)
  : Result (list (option Device)) :=
  let deviceName := Itoa i in
  let device := {| ID := deviceName; Health := Healthy |} in
  let device := if i <? next
                then {| ID := ID device; Health := Unhealthy |}
                else device in
  storeDevice devs i device.

(** A Go [for] over the index values [idxs], threading the slice. *)
Fixpoint for_each (body : list (option Device) -> Z -> Result (list (option Device)))
    (idxs : list Z) (devs : list (option Device)) : Result (list (option Device)) :=
  match idxs with
  | [] => Ok devs
  | i :: rest => devs' <-! body devs i ;; for_each body rest devs'
  end.

(** [listDevice]; [dir] is what [ioutil.ReadDir] returned (the entries, by
    name, and the error). *)
Definition listDevice (dir : list string * option error) (s : MultusNicServer)
  : Result (MultusNicServer * option error) :=
  match snd dir with
  | Some err => Ok (s, Some err)
  | None =>
      let next := Z.of_nat (length (fst dir)) in
      devs <-! for_each (listDevice_body next) (seqZ 0 TotalDevicesCount) (devices s) ;;
      Ok ({| devices := devs; nextDevice := next |}, None)
  end.

(** The start of [Run]: [log.Fatalf] when [listDevice] fails. *)
Inductive RunStart : Type :=
| RunFatal (err : error)
| RunPanic (p : GoPanic)
| RunContinues (s : MultusNicServer).

Definition Run_listDevice (dir : list string * option error) (s : MultusNicServer)
  : RunStart :=
  match listDevice dir s with
  | Panic p => RunPanic p
  | Ok (_, Some err) => RunFatal err
  | Ok (s', None) => RunContinues s'
  end.

(** [Run] up to the start of the serve goroutine: [listDevice], the start of
    the watcher goroutine, the removal of a stale socket file and
    [net.Listen].  [unlink] is the error of [syscall.Unlink] together with
    what [os.IsNotExist] says of it, [listen] the error of [net.Listen]. *)
Inductive RunBind : Type :=
| BindFatal (err : error)
| BindPanic (p : GoPanic)
| BindReturns (watched : MultusNicServer) (err : error)
| BindServes (watched : MultusNicServer).

Definition Run_bind (dir : list string * option error)
    (unlink : option (error * bool)) (listen : option error)
    (s : MultusNicServer) : RunBind :=
  match Run_listDevice dir s with
  | RunFatal err => BindFatal err
  | RunPanic p => BindPanic p
  | RunContinues s' =>
      let bind_socket :=
        match listen with
        | Some err => BindReturns s' err
        | None => BindServes s'
        end in
      match unlink with
      | Some (err, isNotExist) =>
          if negb isNotExist then BindReturns s' err else bind_socket
      | None => bind_socket
      end
  end.

(** ** The watcher *)

Inductive Output : Type :=
| Notify (v : bool)
| LogDeviceEvent (event : Event)
| LogCounts (available used total : Z)
| LogError (err : error)
| LogWatchExit.

Definition isCreate (event : Event) : bool :=
  Z.land (Op event) Create =? Create.
Definition isRemove (event : Event) : bool :=
  Z.land (Op event) Remove =? Remove.

Definition logCounts (s : MultusNicServer) : Output :=
  LogCounts (TotalDevicesCount - nextDevice s) (nextDevice s) TotalDevicesCount.

(** The body of [case event, ok := <-w.Events] for [ok = true]. *)
Definition handleEvent (s : MultusNicServer) (event : Event)
  : Result (MultusNicServer * list Output) :=
  if isCreate event then
    s' <-! (if nextDevice s <? TotalDevicesCount then
              devs <-! setHealth (devices s) (nextDevice s) Unhealthy ;;
              Ok {| devices := devs; nextDevice := nextDevice s + 1 |}
            else Ok s) ;;
    Ok (s', [LogDeviceEvent event; Notify true; logCounts s'])
  else if isRemove event then
    s' <-! (if 0 <? nextDevice s then
              devs <-! setHealth (devices s) (nextDevice s - 1) Healthy ;;
              Ok {| devices := devs; nextDevice := nextDevice s - 1 |}
            else Ok s) ;;
    Ok (s', [LogDeviceEvent event; Notify true; logCounts s'])
  else Ok (s, [LogDeviceEvent event; logCounts s]).

(** The outcome of one [select] of the watcher goroutine. *)
Inductive Select : Type :=
| RecvEvent (event : Event) (ok : bool)
| RecvError (err : error) (ok : bool)
| CtxDone.

Inductive LoopState : Type :=
| Looping (s : MultusNicServer)
| Returned (s : MultusNicServer)
| Crashed (p : GoPanic).

(** The [for { select { ... } }] of [watchDevice].  [continue] and the
    [break] of the [ctx.Done()] case (which leaves the [select], not the
    [for]) both go round the loop again; [return] runs the deferred
    function, and so does a panic of the handler, which comes after the
    logging of the event. *)
Fixpoint watchLoop (s : MultusNicServer) (sels : list Select)
  : LoopState * list Output :=
  match sels with
  | [] => (Looping s, [])
  | RecvEvent event ok :: rest =>
      if negb ok then watchLoop s rest
      else match handleEvent s event with
           | Panic p => (Crashed p, [LogDeviceEvent event; LogWatchExit])
           | Ok (s', out) =>
               let (st, out') := watchLoop s' rest in (st, out ++ out')
           end
  | RecvError err ok :: rest =>
      if negb ok then (Returned s, [LogWatchExit])
      else let (st, out') := watchLoop s rest in (st, LogError err :: out')
  | CtxDone :: rest => watchLoop s rest
  end.

(** ** ListAndWatch *)

(** The outcome of one [select] of a streaming session.  With a received
    notification comes the server as the watcher has left it by then: the
    handler re-reads [s.devices] for every message. *)
Inductive SessionSelect : Type :=
| RecvNotify (s : MultusNicServer)
| SessionCtxDone.

Inductive SessionEnd : Type :=
| SessionWaiting
| SessionReturned (err : option error).

(** One call of [srv.Send]: the device list passed, and what it returned. *)
Definition SendCall : Type := list (option Device) * option error.

(** The update loop; [send k] is what the [k]-th call of [srv.Send] of the
    session returns. *)
Fixpoint ListAndWatch_loop (send : nat -> option error) (k : nat)
    (sels : list SessionSelect) : list SendCall * SessionEnd :=
  match sels with
  | [] => ([], SessionWaiting)
  | RecvNotify s :: rest =>
      let (calls, e) := ListAndWatch_loop send (S k) rest in
      ((devices s, send k) :: calls, e)
  | SessionCtxDone :: _ => ([], SessionReturned None)
  end.

Definition ListAndWatch (s : MultusNicServer) (send : nat -> option error)
    (sels : list SessionSelect) : list SendCall * SessionEnd :=
  match send 0%nat with
  | Some err => ([(devices s, Some err)], SessionReturned (Some err))
  | None =>
      let (calls, e) := ListAndWatch_loop send 1%nat sels in
      ((devices s, None) :: calls, e)
  end.

(** ** Allocate *)

(** The requests are those decoded from the wire: no nil pointer among
    them.  Each response is a fresh allocation appended to the slice. *)
Definition Allocate (s : MultusNicServer) (reqs : AllocateRequest)
  : MultusNicServer * (AllocateResponse * option error) :=
  let resps :=
    foldl (fun resps req =>
             let resp :=
               {| Envs := {[ "MULTUS_NICS" := Join (DevicesIDs req) "," ]} |} in
             resps ++ [resp])
          [] (ContainerRequests reqs) in
  (s, ({| ContainerResponses := resps |}, None)).

(** ** The serve loop of [Run] *)

(** Times are clock readings in nanoseconds ([time.Duration] is an [int64]
    count of nanoseconds).  [d.Seconds() > 3600] compares
    [float64(d/1e9) + float64(d%1e9)/1e9] with 3600; the sum is exactly
    3600 at [d = 3600e9], below it for smaller [d], and above it from
    [d = 3600e9 + 1] on (the spacing of doubles at 3600 is under 1e-12), so
    the test is [3600e9 < d] on the nanosecond count. *)
Definition Second : Z := 1000000000.

Definition Seconds_gt_3600 (d : Z) : bool := 3600 * Second <? d.

Record RestartState : Type := mkRestartState {
  lastCrashTime : Z;
  restartCount : Z
}.

(** One return of [s.srv.Serve(l)]: [nil], or an error together with the
    two clock readings the loop then takes, at [time.Since] and at
    [time.Now]. *)
Inductive ServeReturn : Type :=
| ServeNil
| ServeErr (err : error) (tSince tNow : Z).

Inductive ServeLoop : Type :=
| Serving (st : RestartState)
| ServeStopped (st : RestartState)
| ServeFatal.

Fixpoint serveLoop (st : RestartState) (rets : list ServeReturn) : ServeLoop :=
  match rets with
  | [] => Serving st
  | ServeNil :: _ => ServeStopped st
  | ServeErr err tSince tNow :: rest =>
      if 5 <? restartCount st then ServeFatal
      else
        let timeSinceLastCrash := tSince - lastCrashTime st in
        let lastCrashTime' := tNow in
        let restartCount' :=
          if Seconds_gt_3600 timeSinceLastCrash then 1 else restartCount st + 1 in
        serveLoop {| lastCrashTime := lastCrashTime';
                     restartCount := restartCount' |} rest
  end.

(** The goroutine: [lastCrashTime := time.Now(); restartCount := 0]. *)
Definition serveGoroutine (t0 : Z) (rets : list ServeReturn) : ServeLoop :=
  serveLoop {| lastCrashTime := t0; restartCount := 0 |} rets.

(** Each crash comes within one hour of the previous one (of the start of
    the goroutine, for the first). *)
Fixpoint rapidCrashes (last : Z) (rets : list ServeReturn) : Prop :=
  match rets with
  | [] => True
  | ServeNil :: _ => False
  | ServeErr _ tSince tNow :: rest =>
      tSince - last <= 3600 * Second /\ rapidCrashes tNow rest
  end.

(** ** Vocabulary of the properties *)

(** The device that [listDevice] builds for index [i] when the watermark is
    [next], and the registry of these devices. *)
Definition deviceAt (next i : Z) : Device :=
  {| ID := Itoa i; Health := if i <? next then Unhealthy else Healthy |}.

Definition registryOf (next : Z) : list (option Device) :=
  (fun i => Some (deviceAt next i)) <$> seqZ 0 TotalDevicesCount.

(** The registry invariant: the watermark is within [[0, N]] and the
    registry is the one [listDevice] builds for it. *)
Definition registry_inv (s : MultusNicServer) : Prop :=
  0 <= nextDevice s <= TotalDevicesCount /\
  devices s = registryOf (nextDevice s).

(** The states of the server: what [listDevice] leaves when the directory is
    read, and what the watcher makes of it, event after event. *)
Inductive reachable : MultusNicServer -> Prop :=
| reachable_init (dir : list string) (s : MultusNicServer) :
    listDevice (dir, None) NewMultusNicServer = Ok (s, None) ->
    reachable s
| reachable_event (s s' : MultusNicServer) (event : Event) (out : list Output) :
    reachable s ->
    handleEvent s event = Ok (s', out) ->
    reachable s'.

(** A directory of [n] entries. *)
Definition dirOf (n : Z) : list string :=
  (fun i => "nic" +:+ Itoa i) <$> seqZ 0 n.

(** The server that [Run] starts the watcher on, for a directory of [n]
    entries. *)
Definition serverFor (n : Z) : MultusNicServer :=
  {| devices := registryOf n; nextDevice := n |}.

(** The watcher receiving the events [events] one after the other. *)
Definition deliver (events : list Event) : list Select :=
  (fun event => RecvEvent event true) <$> events.

(** The event is handled by the [Remove] branch. *)
Definition removeOnly (event : Event) : bool :=
  negb (isCreate event) && isRemove event.

Definition createEvent : Event := {| Name := "nic"; Op := Create |}.
Definition removeEvent : Event := {| Name := "nic"; Op := Remove |}.

(** Six crashes, one second apart. *)
Definition sixRapidCrashes : list ServeReturn :=
  (fun k => ServeErr "serve" (k * Second) (k * Second)) <$> [1; 2; 3; 4; 5; 6].

(** The stream on which the second [Send] (the first update) fails. *)
Definition secondSendFails (err : error) (k : nat) : option error :=
  if decide (k = 1%nat) then Some err else None.

(** The response of [Allocate] to one container request. *)
Definition allocateResponseOf (req : ContainerAllocateRequest)
  : ContainerAllocateResponse :=
  {| Envs := {[ "MULTUS_NICS" := Join (DevicesIDs req) "," ]} |}.

(** The number of devices of a slice that report health [h]. *)
Definition healthCount (h : string) (devs : list (option Device)) : nat :=
  length (filter (fun d : option Device => Health <$> d = Some h) devs).

(** The IDs of a slice of devices, slot by slot. *)
Definition deviceIDs (devs : list (option Device)) : list (option string) :=
  (fun d : option Device => ID <$> d) <$> devs.

(** A counter of create events minus remove events that saturates at [N]
    and at 0. *)
Definition countStep (n : Z) (event : Event) : Z :=
  if isCreate event then Z.min (n + 1) TotalDevicesCount
  else if isRemove event then Z.max (n - 1) 0
  else n.

(** The events that the watcher receives from an open event channel. *)
Definition received (sels : list Select) : list Event :=
  omap (fun sel => match sel with
                   | RecvEvent event true => Some event
                   | _ => None
                   end) sels.

(** The values sent on the notify channel, in order. *)
Definition notifications (out : list Output) : list bool :=
  omap (fun o => match o with Notify v => Some v | _ => None end) out.

Definition notifying (event : Event) : bool := isCreate event || isRemove event.

(** Each crash comes more than one hour after the previous one. *)
Fixpoint slowCrashes (last : Z) (rets : list ServeReturn) : Prop :=
  match rets with
  | [] => True
  | ServeNil :: _ => False
  | ServeErr _ tSince tNow :: rest =>
      3600 * Second < tSince - last /\ slowCrashes tNow rest
  end.

(** What an event adds to the number of directory entries, and the sequences
    of events along which that number, started at [n], stays within
    [[0, N]]. *)
Definition eventDelta (event : Event) : Z :=
  if isCreate event then 1 else if isRemove event then -1 else 0.

Fixpoint staysInRange (n : Z) (events : list Event) : Prop :=
  match events with
  | [] => True
  | event :: rest =>
      0 <= n + eventDelta event <= TotalDevicesCount /\
      staysInRange (n + eventDelta event) rest
  end.

(** * Properties *)

Example Itoa_39 : Itoa 39 = "39".
Proof. reflexivity. Qed.

Example Join_one : Join ["5"] "," = "5".
Proof. reflexivity. Qed.

(** ** The serve loop *)

(** C7, as the code has it. On a serve failure at which the counter is at
    most 5 when it is tested, so that the loop goes on, the counter becomes 1
    when more than one hour has passed since the previous crash, and is
    incremented otherwise; so after two failures within ten minutes of the
    start (counter 2) a third failure more than an hour after the second
    sets the counter to 1, not 3. *)
Theorem serveLoop_restart_window :
  forall (st : RestartState) (err : error) (tSince tNow : Z)
         (t0 : Z) (e1 e2 e3 : error) (a1 b1 a2 b2 a3 b3 : Z),
    restartCount st <= 5 ->
    t0 <= a1 -> a1 <= b1 -> b1 <= a2 -> a2 <= b2 -> b2 - t0 <= 600 * Second ->
    3600 * Second < a3 - b2 ->
    (3600 * Second < tSince - lastCrashTime st ->
       serveLoop st [ServeErr err tSince tNow]
       = Serving {| lastCrashTime := tNow; restartCount := 1 |}) /\
    (tSince - lastCrashTime st <= 3600 * Second ->
       serveLoop st [ServeErr err tSince tNow]
       = Serving {| lastCrashTime := tNow; restartCount := restartCount st + 1 |}) /\
    serveGoroutine t0 [ServeErr e1 a1 b1; ServeErr e2 a2 b2]
    = Serving {| lastCrashTime := b2; restartCount := 2 |} /\
    serveGoroutine t0 [ServeErr e1 a1 b1; ServeErr e2 a2 b2; ServeErr e3 a3 b3]
    = Serving {| lastCrashTime := b3; restartCount := 1 |}.
Proof.
  intros st err tSince tNow t0 e1 e2 e3 a1 b1 a2 b2 a3 b3
         Hcnt H01 H11 H12 H22 Hten Hhour.
  unfold serveGoroutine, Second in *. cbn [serveLoop lastCrashTime restartCount].
  assert (Hst : (5 <? restartCount st) = false) by (apply Z.ltb_ge; lia).
  unfold Seconds_gt_3600, Second. rewrite Hst.
  repeat split.
  - intros Hgt. apply Z.ltb_lt in Hgt. now rewrite Hgt.
  - intros Hle. apply Z.ltb_ge in Hle. now rewrite Hle.
  - replace (3600 * 1000000000 <? a1 - t0) with false
      by (symmetry; apply Z.ltb_ge; lia).
    replace (3600 * 1000000000 <? a2 - b1) with false
      by (symmetry; apply Z.ltb_ge; lia).
    reflexivity.
  - replace (3600 * 1000000000 <? a1 - t0) with false
      by (symmetry; apply Z.ltb_ge; lia).
    replace (3600 * 1000000000 <? a2 - b1) with false
      by (symmetry; apply Z.ltb_ge; lia).
    replace (3600 * 1000000000 <? a3 - b2) with true
      by (symmetry; apply Z.ltb_lt; lia).
    reflexivity.
Qed.

(** Two failures 100 s and 500 s after the start, a third one 3601 s after
    the second. *)
Lemma serveLoop_restart_window_witness :
  serveGoroutine 0 [ServeErr "e1" (100 * Second) (100 * Second);
                    ServeErr "e2" (500 * Second) (500 * Second);
                    ServeErr "e3" (4101 * Second) (4101 * Second)]
  = Serving {| lastCrashTime := 4101 * Second; restartCount := 1 |}.
Proof.
  apply (serveLoop_restart_window
           {| lastCrashTime := 0; restartCount := 0 |} "e" 0 0
           0 "e1" "e2" "e3"
           (100 * Second) (100 * Second) (500 * Second) (500 * Second)
           (4101 * Second) (4101 * Second));
    unfold Second; simpl; lia.
Defined.

(** C7, as stated, fails: after six crashes one second apart the counter is
    6, and at a failure 4000 s after the sixth, more than one hour, the
    counter is not reset to 1: it is tested first and the process exits. *)
Lemma late_failure_at_counter_six_is_fatal :
  serveGoroutine 0 sixRapidCrashes
  = Serving {| lastCrashTime := 6 * Second; restartCount := 6 |} /\
  3600 * Second < 4006 * Second - 6 * Second /\
  serveLoop {| lastCrashTime := 6 * Second; restartCount := 6 |}
            [ServeErr "serve" (4006 * Second) (4006 * Second)]
  = ServeFatal /\
  serveGoroutine 0
    (sixRapidCrashes ++ [ServeErr "serve" (4006 * Second) (4006 * Second)])
  = ServeFatal /\
  serveGoroutine 0
    (sixRapidCrashes ++ [ServeErr "serve" (4006 * Second) (4006 * Second)])
  <> Serving {| lastCrashTime := 4006 * Second; restartCount := 1 |}.
Proof.
  split; [vm_compute; reflexivity|].
  split; [unfold Second; lia|].
  split; [reflexivity|].
  split; [vm_compute; reflexivity | vm_compute; discriminate].
Qed.

Lemma serveLoop_rapid (rets : list ServeReturn) :
  forall st : RestartState,
    rapidCrashes (lastCrashTime st) rets ->
    0 <= restartCount st <= 6 ->
    (restartCount st + Z.of_nat (length rets) <= 6 ->
       exists t, serveLoop st rets
                 = Serving {| lastCrashTime := t;
                              restartCount := restartCount st + Z.of_nat (length rets) |}) /\
    (7 <= restartCount st + Z.of_nat (length rets) ->
       serveLoop st rets = ServeFatal).
Proof.
  induction rets as [|r rest IH]; intros [last cnt] Hrapid Hcnt;
    cbn [lastCrashTime restartCount] in *.
  - cbn [length serveLoop]. split; [intros _ | intros Hlen; lia].
    exists last. f_equal. f_equal. lia.
  - destruct r as [|err tSince tNow]; [destruct Hrapid|].
    destruct Hrapid as [Hle Hrest].
    cbn [serveLoop lastCrashTime restartCount length].
    destruct (5 <? cnt) eqn:Hfive.
    + apply Z.ltb_lt in Hfive. split; [lia | reflexivity].
    + apply Z.ltb_ge in Hfive.
      unfold Seconds_gt_3600.
      replace (3600 * Second <? tSince - last) with false
        by (symmetry; apply Z.ltb_ge; lia).
      specialize (IH {| lastCrashTime := tNow; restartCount := cnt + 1 |}).
      cbn [lastCrashTime restartCount] in IH.
      destruct (IH Hrest ltac:(lia)) as [IHa IHb].
      split; intros Hlen.
      * destruct IHa as [t Ht]; [lia|]. exists t. rewrite Ht. f_equal. f_equal. lia.
      * apply IHb. lia.
Qed.

(** C8, as the code has it. The counter is tested before it is updated: a
    serve failure is fatal when the counter is above 5 at that moment.
    With every crash within one hour of the previous one, the first six
    failures each lead to another restart (the counter then equals the
    number of failures) and the seventh is the fatal one. *)
Theorem serveLoop_fatal_on_seventh :
  forall (t0 : Z) (rets : list ServeReturn),
    rapidCrashes t0 rets ->
    (forall (st : RestartState) (err : error) (tSince tNow : Z) (rest : list ServeReturn),
       5 < restartCount st ->
       serveLoop st (ServeErr err tSince tNow :: rest) = ServeFatal) /\
    ((length rets <= 6)%nat ->
       exists t, serveGoroutine t0 rets
                 = Serving {| lastCrashTime := t;
                              restartCount := Z.of_nat (length rets) |}) /\
    ((7 <= length rets)%nat -> serveGoroutine t0 rets = ServeFatal).
Proof.
  intros t0 rets Hrapid. split.
  - intros st err tSince tNow rest Hgt. cbn [serveLoop].
    apply Z.ltb_lt in Hgt. now rewrite Hgt.
  - pose proof (serveLoop_rapid rets {| lastCrashTime := t0; restartCount := 0 |})
      as Hloop.
    cbn [lastCrashTime restartCount] in Hloop.
    destruct (Hloop Hrapid ltac:(lia)) as [Ha Hb]. unfold serveGoroutine.
    split; intros Hlen.
    + destruct Ha as [t Ht]; [lia|]. exists t. rewrite Ht. f_equal.
    + apply Hb. lia.
Qed.


Lemma serveLoop_fatal_on_seventh_witness :
  serveGoroutine 0 (sixRapidCrashes ++ [ServeErr "serve" (7 * Second) (7 * Second)])
  = ServeFatal.
Proof.
  apply (serveLoop_fatal_on_seventh 0
           (sixRapidCrashes ++ [ServeErr "serve" (7 * Second) (7 * Second)])).
  - unfold sixRapidCrashes. simpl. unfold Second. lia.
  - simpl. lia.
Defined.

(** C8, as stated, fails: the sixth rapid failure leads to a restart. *)
Lemma sixth_rapid_failure_restarts :
  rapidCrashes 0 sixRapidCrashes /\
  length sixRapidCrashes = 6%nat /\
  serveGoroutine 0 sixRapidCrashes
  = Serving {| lastCrashTime := 6 * Second; restartCount := 6 |} /\
  serveGoroutine 0 sixRapidCrashes <> ServeFatal.
Proof.
  split; [unfold sixRapidCrashes; simpl; unfold Second; lia|].
  split; [reflexivity|].
  split; [vm_compute; reflexivity | vm_compute; discriminate].
Qed.

(** ** ListAndWatch *)

Lemma ListAndWatch_initial_send_failure (s : MultusNicServer)
    (send : nat -> option error) (sels : list SessionSelect) (err : error) :
  send 0%nat = Some err ->
  ListAndWatch s send sels = ([(devices s, Some err)], SessionReturned (Some err)).
Proof. intros H. unfold ListAndWatch. now rewrite H. Qed.

Lemma ListAndWatch_ctx_done (s : MultusNicServer) (send : nat -> option error) :
  send 0%nat = None ->
  ListAndWatch s send [SessionCtxDone] = ([(devices s, None)], SessionReturned None).
Proof. intros H. unfold ListAndWatch. now rewrite H. Qed.


(** C5, the code at a failing update send: the error returned by the second
    [Send] is dropped, the session goes on to the next notification and
    sends again, and the handler returns [nil] at cancellation. *)
Theorem ListAndWatch_drops_update_send_error :
  forall (s s1 s2 : MultusNicServer) (err : error),
    ListAndWatch s (secondSendFails err)
      [RecvNotify s1; RecvNotify s2; SessionCtxDone]
    = ([(devices s, None); (devices s1, Some err); (devices s2, None)],
       SessionReturned None).
Proof. intros s s1 s2 err. reflexivity. Qed.

(** ** Allocate *)


Lemma foldl_append_responses (reqs : list ContainerAllocateRequest) :
  forall acc : list ContainerAllocateResponse,
    foldl (fun resps req =>
             let resp :=
               {| Envs := {[ "MULTUS_NICS" := Join (DevicesIDs req) "," ]} |} in
             resps ++ [resp]) acc reqs
    = acc ++ (allocateResponseOf <$> reqs).
Proof.
  induction reqs as [|req reqs IH]; intros acc; cbn [foldl fmap list_fmap].
  - now rewrite app_nil_r.
  - rewrite IH. now rewrite <- app_assoc.
Qed.

(** C9. [Allocate] returns, with a nil error, one container response per
    container request, in the order of the requests; the environment map of
    each is the single binding of [MULTUS_NICS] to the comma-joined device
    IDs of its request (["3,7"] for the IDs ["3"], ["7"]); the server is
    left as it was. *)
Theorem Allocate_envs :
  forall (s : MultusNicServer) (reqs : AllocateRequest),
    Allocate s reqs
    = (s, ({| ContainerResponses := allocateResponseOf <$> ContainerRequests reqs |},
           None)) /\
    length (allocateResponseOf <$> ContainerRequests reqs)
    = length (ContainerRequests reqs) /\
    Allocate s {| ContainerRequests := [ {| DevicesIDs := ["3"; "7"] |} ] |}
    = (s, ({| ContainerResponses := [ {| Envs := {[ "MULTUS_NICS" := "3,7" ]} |} ] |},
           None)).
Proof.
  intros s reqs. split; [|split].
  - unfold Allocate. now rewrite foldl_append_responses.
  - apply length_fmap.
  - reflexivity.
Qed.

(** ** The registry *)

Lemma length_registryOf (next : Z) : length (registryOf next) = 40%nat.
Proof. unfold registryOf. now rewrite length_fmap, length_seqZ. Qed.

Lemma lookup_registryOf (next : Z) (i : nat) :
  (i < 40)%nat ->
  registryOf next !! i = Some (Some (deviceAt next (Z.of_nat i))).
Proof.
  intros Hi. unfold registryOf. rewrite list_lookup_fmap.
  rewrite lookup_seqZ_lt by (unfold TotalDevicesCount; lia).
  cbn. do 2 f_equal.
Qed.

Lemma lookup_registryOf_ge (next : Z) (i : nat) :
  (40 <= i)%nat -> registryOf next !! i = None.
Proof. intros Hi. apply lookup_ge_None. rewrite length_registryOf. lia. Qed.

Lemma Healthy_neq_Unhealthy : Healthy <> Unhealthy.
Proof. discriminate. Qed.

(** Rewriting one entry of the registry for watermark [n] to its value for
    watermark [m] gives the registry for [m], when the two watermarks agree
    on every other index. *)
Lemma insert_registryOf (n m k : Z) :
  0 <= k < 40 ->
  (forall i, 0 <= i < 40 -> i <> k -> (i <? n) = (i <? m)) ->
  <[Z.to_nat k := Some (deviceAt m k)]> (registryOf n) = registryOf m.
Proof.
  intros Hk Hother. apply list_eq. intros i.
  destruct (decide (i = Z.to_nat k)) as [->|Hne].
  - rewrite list_lookup_insert_eq by (rewrite length_registryOf; lia).
    rewrite lookup_registryOf by lia. now rewrite Z2Nat.id by lia.
  - rewrite list_lookup_insert_ne by congruence.
    destruct (decide (i < 40)%nat) as [Hi|Hi].
    + rewrite !lookup_registryOf by lia. unfold deviceAt.
      rewrite (Hother (Z.of_nat i)) by lia. reflexivity.
    + rewrite !lookup_registryOf_ge by lia. reflexivity.
Qed.

Lemma setHealth_create (n : Z) :
  0 <= n < 40 ->
  setHealth (registryOf n) n Unhealthy = Ok (registryOf (n + 1)).
Proof.
  intros Hn. unfold setHealth. rewrite length_registryOf.
  replace ((0 <=? n) && (n <? Z.of_nat 40)) with true
    by (symmetry; apply andb_true_iff; split; [apply Z.leb_le | apply Z.ltb_lt]; lia).
  rewrite lookup_registryOf by lia. rewrite Z2Nat.id by lia.
  f_equal. rewrite <- (insert_registryOf n (n + 1) n); [|lia|].
  - unfold deviceAt. cbn [ID]. replace (n <? n + 1) with true
      by (symmetry; apply Z.ltb_lt; lia). reflexivity.
  - intros i Hi Hne. destruct (Z.ltb_spec i n), (Z.ltb_spec i (n + 1)); lia || reflexivity.
Qed.

Lemma setHealth_remove (n : Z) :
  0 < n <= 40 ->
  setHealth (registryOf n) (n - 1) Healthy = Ok (registryOf (n - 1)).
Proof.
  intros Hn. unfold setHealth. rewrite length_registryOf.
  replace ((0 <=? n - 1) && (n - 1 <? Z.of_nat 40)) with true
    by (symmetry; apply andb_true_iff; split; [apply Z.leb_le | apply Z.ltb_lt]; lia).
  rewrite lookup_registryOf by lia. rewrite Z2Nat.id by lia.
  f_equal. rewrite <- (insert_registryOf n (n - 1) (n - 1)); [|lia|].
  - unfold deviceAt. cbn [ID]. replace (n - 1 <? n - 1) with false
      by (symmetry; apply Z.ltb_ge; lia). reflexivity.
  - intros i Hi Hne. destruct (Z.ltb_spec i n), (Z.ltb_spec i (n - 1)); lia || reflexivity.
Qed.

(** ** listDevice *)

Lemma listDevice_body_store (next : Z) (pre : list (option Device))
    (d : option Device) (post : list (option Device)) :
  listDevice_body next (pre ++ d :: post) (Z.of_nat (length pre))
  = Ok ((pre ++ [Some (deviceAt next (Z.of_nat (length pre)))]) ++ post).
Proof.
  unfold listDevice_body, storeDevice. rewrite length_app. cbn [length].
  replace ((0 <=? Z.of_nat (length pre))
           && (Z.of_nat (length pre) <? Z.of_nat (length pre + S (length post))))
    with true
    by (symmetry; apply andb_true_iff; split; [apply Z.leb_le | apply Z.ltb_lt]; lia).
  rewrite Nat2Z.id.
  rewrite insert_app_r_alt by lia. rewrite Nat.sub_diag.
  cbn [insert list_insert]. rewrite <- app_assoc.
  unfold deviceAt. cbn [ID].
  destruct (Z.of_nat (length pre) <? next); reflexivity.
Qed.

(** The loop of [listDevice] from index [length pre] on: the part of the
    slice already written is [pre], the part still to be written is [post]. *)
Lemma for_each_listDevice (next : Z) (post : list (option Device)) :
  forall pre : list (option Device),
    for_each (listDevice_body next)
             (seqZ (Z.of_nat (length pre)) (Z.of_nat (length post))) (pre ++ post)
    = Ok (pre ++ ((fun i => Some (deviceAt next i))
                    <$> seqZ (Z.of_nat (length pre)) (Z.of_nat (length post)))).
Proof.
  induction post as [|d post IH]; intros pre.
  - reflexivity.
  - rewrite seqZ_cons by (cbn [length]; lia).
    cbn [for_each fmap list_fmap]. rewrite listDevice_body_store. cbn [bind].
    replace (Z.pred (Z.of_nat (length (d :: post)))) with (Z.of_nat (length post))
      by (cbn [length]; lia).
    specialize (IH (pre ++ [Some (deviceAt next (Z.of_nat (length pre)))])).
    rewrite length_app in IH. cbn [length] in IH.
    replace (Z.of_nat (length pre + 1)) with (Z.succ (Z.of_nat (length pre))) in IH by lia.
    rewrite IH. now rewrite <- app_assoc.
Qed.

(** When the directory is read, [listDevice] fills the slice with the
    registry for the number of entries, and sets the watermark to that
    number as it is. *)
Lemma listDevice_ok (dir : list string) (s : MultusNicServer) :
  length (devices s) = 40%nat ->
  listDevice (dir, None) s = Ok (serverFor (Z.of_nat (length dir)), None).
Proof.
  intros Hlen. unfold listDevice. cbn [fst snd].
  pose proof (for_each_listDevice (Z.of_nat (length dir)) (devices s) []) as Hloop.
  rewrite Hlen in Hloop. cbn [length app] in Hloop.
  change (Z.of_nat 0) with 0 in Hloop.
  change (Z.of_nat 40) with TotalDevicesCount in Hloop.
  rewrite Hloop. reflexivity.
Qed.

(** When the directory cannot be read, [listDevice] returns the error and
    leaves the server alone, and [Run] exits on it. *)
Lemma listDevice_error (entries : list string) (err : error) (s : MultusNicServer) :
  listDevice (entries, Some err) s = Ok (s, Some err) /\
  Run_listDevice (entries, Some err) s = RunFatal err.
Proof. split; reflexivity. Qed.

Lemma Run_listDevice_ok (dir : list string) :
  Run_listDevice (dir, None) NewMultusNicServer
  = RunContinues (serverFor (Z.of_nat (length dir))).
Proof. unfold Run_listDevice. now rewrite listDevice_ok. Qed.

(** The registry does not tell watermarks above [N] apart. *)
Lemma registryOf_min (count : Z) :
  registryOf count = registryOf (Z.min count TotalDevicesCount).
Proof.
  unfold registryOf. apply list_fmap_ext. intros i x Hx.
  apply lookup_seqZ in Hx. destruct Hx as [-> Hi].
  unfold deviceAt, TotalDevicesCount in *. do 2 f_equal.
  destruct (Z.ltb_spec (0 + Z.of_nat i) count),
           (Z.ltb_spec (0 + Z.of_nat i) (Z.min count 40)); lia || reflexivity.
Qed.

(** The health of a device of the registry built for [count] entries. *)
Lemma listDevice_health (dir : list string) (i : nat) :
  (i < 40)%nat ->
  devices (serverFor (Z.of_nat (length dir))) !! i
  = Some (Some {| ID := Itoa (Z.of_nat i);
                  Health := if Z.of_nat i <? Z.min (Z.of_nat (length dir)) TotalDevicesCount
                            then Unhealthy else Healthy |}).
Proof.
  intros Hi. cbn [devices serverFor]. rewrite registryOf_min.
  now rewrite lookup_registryOf.
Qed.

(** Scenario 1: three entries at startup. *)
Example listDevice_three_entries :
  listDevice (dirOf 3, None) NewMultusNicServer
  = Ok ({| devices :=
             ((fun i => Some {| ID := Itoa i; Health := Unhealthy |}) <$> seqZ 0 3)
             ++ ((fun i => Some {| ID := Itoa i; Health := Healthy |}) <$> seqZ 3 37);
           nextDevice := 3 |}, None).
Proof. vm_compute. reflexivity. Qed.

(** ** The event handler *)

Lemma registry_inv_serverFor (s : MultusNicServer) :
  registry_inv s -> s = serverFor (nextDevice s).
Proof. destruct s as [devs next]. intros [_ Hdevs]. cbn in *. now subst devs. Qed.

Lemma serverFor_registry_inv (n : Z) :
  0 <= n <= TotalDevicesCount -> registry_inv (serverFor n).
Proof. intros Hn. split; [exact Hn | reflexivity]. Qed.

(** Under the invariant the health of a device says on which side of the
    watermark it lies. *)
Lemma registry_inv_health (s : MultusNicServer) (i : nat) (d : Device) :
  registry_inv s ->
  devices s !! i = Some (Some d) ->
  (Health d = Unhealthy <-> Z.of_nat i < nextDevice s) /\
  (Health d = Healthy <-> nextDevice s <= Z.of_nat i).
Proof.
  intros [_ Hdevs] Hd. rewrite Hdevs in Hd.
  assert (Hi : (i < 40)%nat).
  { apply lookup_lt_Some in Hd. now rewrite length_registryOf in Hd. }
  rewrite lookup_registryOf in Hd by exact Hi. injection Hd as <-.
  unfold deviceAt. cbn [Health].
  destruct (Z.ltb_spec (Z.of_nat i) (nextDevice s)); split; split;
    intros; try lia; try reflexivity; discriminate.
Qed.

Lemma setHealth_bounds (devs : list (option Device)) (i : Z) (h : string) :
  (0 <= i < Z.of_nat (length devs) ->
     forall j len, setHealth devs i h <> Panic (IndexOutOfRange j len)) /\
  (~ 0 <= i < Z.of_nat (length devs) ->
     setHealth devs i h = Panic (IndexOutOfRange i (length devs))).
Proof.
  unfold setHealth.
  destruct (Z.leb_spec 0 i), (Z.ltb_spec i (Z.of_nat (length devs)));
    cbn [andb]; split; intros Hi; try lia; try reflexivity.
  intros j len. destruct (devs !! Z.to_nat i) as [[d|]|]; discriminate.
Qed.

Lemma handleEvent_create_below (n : Z) (event : Event) :
  0 <= n < 40 -> isCreate event = true ->
  handleEvent (serverFor n) event
  = Ok (serverFor (n + 1),
        [LogDeviceEvent event; Notify true; logCounts (serverFor (n + 1))]).
Proof.
  intros Hn Hc. unfold handleEvent. rewrite Hc. cbn [serverFor nextDevice devices].
  replace (n <? TotalDevicesCount) with true
    by (symmetry; apply Z.ltb_lt; unfold TotalDevicesCount; lia).
  now rewrite setHealth_create.
Qed.

Lemma handleEvent_create_full (s : MultusNicServer) (event : Event) :
  TotalDevicesCount <= nextDevice s -> isCreate event = true ->
  handleEvent s event = Ok (s, [LogDeviceEvent event; Notify true; logCounts s]).
Proof.
  intros Hn Hc. unfold handleEvent. rewrite Hc.
  replace (nextDevice s <? TotalDevicesCount) with false
    by (symmetry; apply Z.ltb_ge; lia).
  reflexivity.
Qed.

Lemma handleEvent_remove_above (n : Z) (event : Event) :
  0 < n <= 40 -> removeOnly event = true ->
  handleEvent (serverFor n) event
  = Ok (serverFor (n - 1),
        [LogDeviceEvent event; Notify true; logCounts (serverFor (n - 1))]).
Proof.
  intros Hn Hr. apply andb_true_iff in Hr. destruct Hr as [Hc Hr].
  apply negb_true_iff in Hc.
  unfold handleEvent. rewrite Hc, Hr. cbn [serverFor nextDevice devices].
  replace (0 <? n) with true by (symmetry; apply Z.ltb_lt; lia).
  now rewrite setHealth_remove.
Qed.

Lemma handleEvent_remove_empty (s : MultusNicServer) (event : Event) :
  nextDevice s <= 0 -> removeOnly event = true ->
  handleEvent s event = Ok (s, [LogDeviceEvent event; Notify true; logCounts s]).
Proof.
  intros Hn Hr. apply andb_true_iff in Hr. destruct Hr as [Hc Hr].
  apply negb_true_iff in Hc.
  unfold handleEvent. rewrite Hc, Hr.
  replace (0 <? nextDevice s) with false by (symmetry; apply Z.ltb_ge; lia).
  reflexivity.
Qed.

Lemma handleEvent_other (s : MultusNicServer) (event : Event) :
  isCreate event = false -> isRemove event = false ->
  handleEvent s event = Ok (s, [LogDeviceEvent event; logCounts s]).
Proof. intros Hc Hr. unfold handleEvent. now rewrite Hc, Hr. Qed.

(** With the watermark at [N] or above, an event that does not take the
    [Remove] branch changes nothing. *)
Lemma handleEvent_full_noop (s : MultusNicServer) (event : Event) :
  TotalDevicesCount <= nextDevice s -> removeOnly event = false ->
  exists out, handleEvent s event = Ok (s, out).
Proof.
  intros Hn Hr. destruct (isCreate event) eqn:Hc.
  - eexists. now apply handleEvent_create_full.
  - unfold removeOnly in Hr. rewrite Hc in Hr. cbn in Hr.
    eexists. now apply handleEvent_other.
Qed.

Lemma handleEvent_remove_overfull (s : MultusNicServer) (event : Event) :
  Z.of_nat (length (devices s)) < nextDevice s -> removeOnly event = true ->
  handleEvent s event
  = Panic (IndexOutOfRange (nextDevice s - 1) (length (devices s))).
Proof.
  intros Hn Hr. apply andb_true_iff in Hr. destruct Hr as [Hc Hr].
  apply negb_true_iff in Hc. unfold handleEvent. rewrite Hc, Hr.
  replace (0 <? nextDevice s) with true by (symmetry; apply Z.ltb_lt; lia).
  destruct (setHealth_bounds (devices s) (nextDevice s - 1) Healthy) as [_ Hout].
  rewrite Hout by lia. reflexivity.
Qed.

Lemma handleEvent_create_negative (s : MultusNicServer) (event : Event) :
  nextDevice s < 0 -> isCreate event = true ->
  handleEvent s event
  = Panic (IndexOutOfRange (nextDevice s) (length (devices s))).
Proof.
  intros Hn Hc. unfold handleEvent. rewrite Hc.
  replace (nextDevice s <? TotalDevicesCount) with true
    by (symmetry; apply Z.ltb_lt; unfold TotalDevicesCount; lia).
  destruct (setHealth_bounds (devices s) (nextDevice s) Unhealthy) as [_ Hout].
  rewrite Hout by lia. reflexivity.
Qed.

(** Under the invariant every event is handled, and the invariant holds
    again afterwards. *)
Lemma registry_inv_step (s : MultusNicServer) (event : Event) :
  registry_inv s ->
  exists s' out, handleEvent s event = Ok (s', out) /\ registry_inv s'.
Proof.
  intros Hinv. rewrite (registry_inv_serverFor s Hinv).
  destruct Hinv as [Hn _]. unfold TotalDevicesCount in Hn.
  generalize dependent (nextDevice s). clear s. intros n Hn.
  destruct (isCreate event) eqn:Hc; [|destruct (isRemove event) eqn:Hr].
  - destruct (decide (n < 40)) as [Hlt|Hge].
    + rewrite handleEvent_create_below by (assumption || lia).
      eexists _, _. split; [reflexivity|].
      apply serverFor_registry_inv. unfold TotalDevicesCount. lia.
    + rewrite handleEvent_create_full
        by (assumption || (cbn; unfold TotalDevicesCount; lia)).
      eexists _, _. split; [reflexivity|].
      apply serverFor_registry_inv. unfold TotalDevicesCount. lia.
  - assert (Hro : removeOnly event = true) by (unfold removeOnly; now rewrite Hc, Hr).
    destruct (decide (0 < n)) as [Hgt|Hle].
    + rewrite handleEvent_remove_above by (assumption || lia).
      eexists _, _. split; [reflexivity|].
      apply serverFor_registry_inv. unfold TotalDevicesCount. lia.
    + rewrite handleEvent_remove_empty by (assumption || (cbn; lia)).
      eexists _, _. split; [reflexivity|].
      apply serverFor_registry_inv. unfold TotalDevicesCount. lia.
  - rewrite handleEvent_other by assumption.
    eexists _, _. split; [reflexivity|].
    apply serverFor_registry_inv. unfold TotalDevicesCount. lia.
Qed.

(** The watcher keeps the invariant over any sequence of events, and does
    not crash. *)
Lemma registry_inv_watchLoop (events : list Event) :
  forall s : MultusNicServer,
    registry_inv s ->
    exists s', fst (watchLoop s (deliver events)) = Looping s' /\ registry_inv s'.
Proof.
  induction events as [|event events IH]; intros s Hinv.
  - exists s. split; [reflexivity | exact Hinv].
  - destruct (registry_inv_step s event Hinv) as (s1 & out & Hstep & Hinv1).
    destruct (IH s1 Hinv1) as (s' & Hrun & Hinv').
    exists s'. split; [|exact Hinv'].
    cbn [deliver fmap list_fmap watchLoop negb]. rewrite Hstep.
    fold (deliver events). destruct (watchLoop s1 (deliver events)). exact Hrun.
Qed.

(** A directory of at most [N] entries starts the server inside the
    invariant. *)
Lemma listDevice_registry_inv (dir : list string) :
  Z.of_nat (length dir) <= TotalDevicesCount ->
  listDevice (dir, None) NewMultusNicServer
  = Ok (serverFor (Z.of_nat (length dir)), None) /\
  registry_inv (serverFor (Z.of_nat (length dir))).
Proof.
  intros Hlen. split.
  - now apply listDevice_ok.
  - apply serverFor_registry_inv. lia.
Qed.

(** The states of the server are the [serverFor n]: within the invariant
    for [n <= N], and otherwise left as they are by every event that is
    handled without a crash. *)
Lemma reachable_serverFor (s : MultusNicServer) :
  reachable s -> exists n, 0 <= n /\ s = serverFor n.
Proof.
  induction 1 as [dir s Hinit | s s' event out Hreach IH Hstep].
  - rewrite listDevice_ok in Hinit by reflexivity. injection Hinit as <-.
    exists (Z.of_nat (length dir)). split; [lia | reflexivity].
  - destruct IH as (n & Hn & ->).
    destruct (decide (n <= TotalDevicesCount)) as [Hle|Hgt].
    + destruct (registry_inv_step (serverFor n) event) as (s1 & out1 & Hs1 & Hinv1);
        [now apply serverFor_registry_inv|].
      rewrite Hs1 in Hstep. injection Hstep as <- _.
      exists (nextDevice s1). split; [apply Hinv1 | now apply registry_inv_serverFor].
    + destruct (removeOnly event) eqn:Hr.
      * rewrite handleEvent_remove_overfull in Hstep; [discriminate| |exact Hr].
        cbn [devices nextDevice serverFor]. rewrite length_registryOf.
        unfold TotalDevicesCount in Hgt. lia.
      * destruct (handleEvent_full_noop (serverFor n) event) as [out1 Hs1];
          [cbn; lia | exact Hr |].
        rewrite Hs1 in Hstep. injection Hstep as <- _.
        exists n. split; [exact Hn | reflexivity].
Qed.

Lemma reachable_registry_inv (s : MultusNicServer) :
  reachable s -> nextDevice s <= TotalDevicesCount -> registry_inv s.
Proof.
  intros Hreach Hle. destruct (reachable_serverFor s Hreach) as (n & Hn & ->).
  apply serverFor_registry_inv. cbn in Hle. lia.
Qed.

(** C1, the code at a directory of 41 entries: the state that [listDevice]
    leaves is a state of the server, and its watermark is 41, above
    [N = 40]. *)
Theorem listDevice_overfull_breaks_invariant :
  exists s : MultusNicServer,
    listDevice (dirOf 41, None) NewMultusNicServer = Ok (s, None) /\
    reachable s /\
    nextDevice s = 41 /\
    ~ (0 <= nextDevice s <= TotalDevicesCount).
Proof.
  exists (serverFor 41).
  assert (H : listDevice (dirOf 41, None) NewMultusNicServer = Ok (serverFor 41, None))
    by (vm_compute; reflexivity).
  split; [exact H|]. split; [exact (reachable_init _ _ H)|].
  split; [reflexivity|]. cbn. unfold TotalDevicesCount. lia.
Qed.

(** C3, the code at a directory of 41 entries: [listDevice] returns no
    error, all 40 devices are Unhealthy, and the watermark is set to 41, the
    number of entries, where [min(41, N)] is 40. *)
Theorem listDevice_watermark_unclamped :
  listDevice (dirOf 41, None) NewMultusNicServer = Ok (serverFor 41, None) /\
  devices (serverFor 41) = registryOf 40 /\
  nextDevice (serverFor 41) = 41 /\
  Z.min 41 TotalDevicesCount = 40.
Proof. repeat split; vm_compute; reflexivity. Qed.

(** C2, as the code has it. A create event at watermark [N], and a remove
    event (one that is not also a create event) at watermark 0, leave the
    server as it is; the send on the notify channel follows the capacity
    test, outside it, so one notification is sent all the same. *)
Theorem handleEvent_ignored_event_notifies :
  forall (s : MultusNicServer) (event : Event),
    (nextDevice s = TotalDevicesCount /\ isCreate event = true) \/
    (nextDevice s = 0 /\ removeOnly event = true) ->
    handleEvent s event
    = Ok (s, [LogDeviceEvent event; Notify true; logCounts s]).
Proof.
  intros s event [[Hn Hc]|[Hn Hr]].
  - apply handleEvent_create_full; [lia | exact Hc].
  - apply handleEvent_remove_empty; [lia | exact Hr].
Qed.

Lemma handleEvent_ignored_event_notifies_witness :
  handleEvent (serverFor 40) createEvent
  = Ok (serverFor 40,
        [LogDeviceEvent createEvent; Notify true; logCounts (serverFor 40)]).
Proof.
  apply (handleEvent_ignored_event_notifies (serverFor 40) createEvent).
  left. split; reflexivity.
Defined.

(** C2, as stated, fails: both ignored events send a notification. *)
Lemma ignored_events_send_notification :
  (exists out, handleEvent (serverFor 40) createEvent = Ok (serverFor 40, out) /\
               In (Notify true) out) /\
  (exists out, handleEvent (serverFor 0) removeEvent = Ok (serverFor 0, out) /\
               In (Notify true) out).
Proof.
  split; eexists; (split; [vm_compute; reflexivity | right; left; reflexivity]).
Qed.

(** ** The watch loop *)

Lemma watchLoop_event (s s' : MultusNicServer) (event : Event)
    (out : list Output) (rest : list Select) :
  handleEvent s event = Ok (s', out) ->
  fst (watchLoop s (RecvEvent event true :: rest)) = fst (watchLoop s' rest).
Proof.
  intros H. cbn [watchLoop negb]. rewrite H.
  now destruct (watchLoop s' rest).
Qed.

Lemma watchLoop_event_panic (s : MultusNicServer) (event : Event)
    (p : GoPanic) (rest : list Select) :
  handleEvent s event = Panic p ->
  watchLoop s (RecvEvent event true :: rest)
  = (Crashed p, [LogDeviceEvent event; LogWatchExit]).
Proof. intros H. cbn [watchLoop negb]. now rewrite H. Qed.

(** An error of the event source is logged and the loop goes on. *)
Lemma watchLoop_error_logged (s : MultusNicServer) (err : error) (rest : list Select) :
  watchLoop s (RecvError err true :: rest)
  = (fst (watchLoop s rest), LogError err :: snd (watchLoop s rest)).
Proof. cbn [watchLoop negb]. now destruct (watchLoop s rest). Qed.

(** The loop returns when the error channel is closed; a closed event
    channel makes it go round again. *)
Lemma watchLoop_closed_channels (s : MultusNicServer) (event : Event)
    (err : error) (rest : list Select) :
  watchLoop s (RecvError err false :: rest) = (Returned s, [LogWatchExit]) /\
  watchLoop s (RecvEvent event false :: rest) = watchLoop s rest.
Proof. split; reflexivity. Qed.

(** C6, the code at a cancellation: the [break] of the [ctx.Done()] case
    leaves the [select] only, so the loop takes the next [select] as if
    nothing had happened; after a cancellation it is still looping, and a
    create event that follows is handled. *)
Theorem watchLoop_survives_cancellation :
  forall (s : MultusNicServer) (sels : list Select),
    watchLoop s (CtxDone :: sels) = watchLoop s sels /\
    watchLoop s [CtxDone] = (Looping s, []) /\
    watchLoop (serverFor 3) [CtxDone; RecvEvent createEvent true]
    = (Looping (serverFor 4),
       [LogDeviceEvent createEvent; Notify true; LogCounts 36 4 40]).
Proof. intros s sels. repeat split. Qed.

(** [K] create events move the watermark up by [K] while there is room. *)
Lemma watchLoop_creates (creates : list Event) (rest : list Select) :
  forall n : Z,
    0 <= n -> n + Z.of_nat (length creates) <= 40 ->
    Forall (fun event => isCreate event = true) creates ->
    fst (watchLoop (serverFor n) (deliver creates ++ rest))
    = fst (watchLoop (serverFor (n + Z.of_nat (length creates))) rest).
Proof.
  induction creates as [|c creates IH]; intros n Hn Hroom Hall.
  - cbn. now rewrite Z.add_0_r.
  - cbn [length] in Hroom. inversion Hall as [|? ? Hc Hall']; subst.
    cbn [deliver fmap list_fmap app].
    rewrite (watchLoop_event _ _ _ _ _ (handleEvent_create_below n c ltac:(lia) Hc)).
    fold (deliver creates). rewrite IH by (assumption || lia).
    do 3 f_equal. cbn [length]. lia.
Qed.

(** [K] remove events move the watermark down by [K] while it is positive. *)
Lemma watchLoop_removes (removes : list Event) (rest : list Select) :
  forall n : Z,
    Z.of_nat (length removes) <= n -> n <= 40 ->
    Forall (fun event => removeOnly event = true) removes ->
    fst (watchLoop (serverFor n) (deliver removes ++ rest))
    = fst (watchLoop (serverFor (n - Z.of_nat (length removes))) rest).
Proof.
  induction removes as [|r removes IH]; intros n Hn Hroom Hall.
  - cbn. now rewrite Z.sub_0_r.
  - cbn [length] in Hn. inversion Hall as [|? ? Hr Hall']; subst.
    cbn [deliver fmap list_fmap app].
    rewrite (watchLoop_event _ _ _ _ _ (handleEvent_remove_above n r ltac:(lia) Hr)).
    fold (deliver removes). rewrite IH by (assumption || lia).
    do 3 f_equal. cbn [length]. lia.
Qed.

Lemma registry_inv_creates_then_removes (s : MultusNicServer)
    (creates removes : list Event) :
  registry_inv s ->
  nextDevice s + Z.of_nat (length creates) <= TotalDevicesCount ->
  length removes = length creates ->
  Forall (fun event => isCreate event = true) creates ->
  Forall (fun event => removeOnly event = true) removes ->
  fst (watchLoop s (deliver (creates ++ removes))) = Looping s.
Proof.
  intros Hinv Hroom Hlen Hcs Hrs.
  rewrite (registry_inv_serverFor s Hinv).
  destruct Hinv as [Hn _]. unfold TotalDevicesCount in *.
  unfold deliver. rewrite fmap_app. fold (deliver creates) (deliver removes).
  rewrite watchLoop_creates by (assumption || lia).
  rewrite <- (app_nil_r (deliver removes)).
  rewrite watchLoop_removes by (assumption || lia).
  cbn [watchLoop fst]. do 2 f_equal. lia.
Qed.

(** C4, as the code has it. From a state of the server with room for [K]
    more devices (watermark + K <= N), [K] create events followed by [K]
    remove events, handled by the watcher one after the other, bring the
    server back to exactly that state: every health value and the
    watermark. *)
Theorem watchLoop_creates_then_removes :
  forall (s : MultusNicServer) (creates removes : list Event),
    reachable s ->
    nextDevice s + Z.of_nat (length creates) <= TotalDevicesCount ->
    length removes = length creates ->
    Forall (fun event => isCreate event = true) creates ->
    Forall (fun event => removeOnly event = true) removes ->
    fst (watchLoop s (deliver (creates ++ removes))) = Looping s.
Proof.
  intros s creates removes Hreach Hroom Hlen Hcs Hrs.
  apply registry_inv_creates_then_removes; try assumption.
  apply reachable_registry_inv; [exact Hreach | lia].
Qed.

Lemma watchLoop_creates_then_removes_witness :
  fst (watchLoop (serverFor 3)
         (deliver ([createEvent; createEvent] ++ [removeEvent; removeEvent])))
  = Looping (serverFor 3).
Proof.
  apply (watchLoop_creates_then_removes (serverFor 3)
           [createEvent; createEvent] [removeEvent; removeEvent]).
  - apply (reachable_init (dirOf 3)). vm_compute. reflexivity.
  - unfold TotalDevicesCount. simpl. lia.
  - reflexivity.
  - repeat constructor.
  - repeat constructor.
Defined.

(** C4, as stated, fails: from the state left by a directory of 39
    entries, two create events (the second finds the registry full) and two
    remove events end at watermark 38. *)
Lemma creates_then_removes_at_capacity :
  listDevice (dirOf 39, None) NewMultusNicServer = Ok (serverFor 39, None) /\
  reachable (serverFor 39) /\
  fst (watchLoop (serverFor 39)
         (deliver ([createEvent; createEvent] ++ [removeEvent; removeEvent])))
  = Looping (serverFor 38) /\
  serverFor 38 <> serverFor 39.
Proof.
  split; [vm_compute; reflexivity|].
  split; [apply (reachable_init (dirOf 39)); vm_compute; reflexivity|].
  split; [vm_compute; reflexivity|].
  intros H. apply (f_equal nextDevice) in H. discriminate H.
Qed.

(** ** Bounds of the accesses of the watcher *)

Lemma handleEvent_in_bounds (s : MultusNicServer) (event : Event) :
  length (devices s) = 40%nat ->
  0 <= nextDevice s <= TotalDevicesCount ->
  forall i len, handleEvent s event <> Panic (IndexOutOfRange i len).
Proof.
  unfold TotalDevicesCount. intros Hlen Hn i len.
  unfold handleEvent, TotalDevicesCount.
  destruct (isCreate event); [|destruct (isRemove event)]; [| |discriminate].
  - destruct (Z.ltb_spec (nextDevice s) 40); [|cbn [bind]; discriminate].
    destruct (setHealth_bounds (devices s) (nextDevice s) Unhealthy) as [Hin _].
    specialize (Hin ltac:(lia) i len).
    destruct (setHealth (devices s) (nextDevice s) Unhealthy);
      cbn [bind]; [discriminate | congruence].
  - destruct (Z.ltb_spec 0 (nextDevice s)); [|cbn [bind]; discriminate].
    destruct (setHealth_bounds (devices s) (nextDevice s - 1) Healthy) as [Hin _].
    specialize (Hin ltac:(lia) i len).
    destruct (setHealth (devices s) (nextDevice s - 1) Healthy);
      cbn [bind]; [discriminate | congruence].
Qed.

(** With the watermark above [N], the watcher crashes on the first event
    that takes the [Remove] branch. *)
Lemma watchLoop_overfull_remove (n : Z) (pre : list Event) (r : Event)
    (post : list Event) :
  TotalDevicesCount < n ->
  Forall (fun event => removeOnly event = false) pre ->
  removeOnly r = true ->
  fst (watchLoop (serverFor n) (deliver (pre ++ r :: post)))
  = Crashed (IndexOutOfRange (n - 1) 40).
Proof.
  intros Hn Hpre Hr. induction Hpre as [|c pre Hc Hpre IH].
  - cbn [app deliver fmap list_fmap]. rewrite (watchLoop_event_panic _ _
      (IndexOutOfRange (n - 1) 40)); [reflexivity|].
    rewrite handleEvent_remove_overfull; [|cbn [devices nextDevice serverFor]|exact Hr].
    + cbn [devices nextDevice serverFor]. now rewrite length_registryOf.
    + rewrite length_registryOf. unfold TotalDevicesCount in Hn. lia.
  - cbn [app deliver fmap list_fmap].
    destruct (handleEvent_full_noop (serverFor n) c) as [out Hout];
      [cbn; lia | exact Hc |].
    rewrite (watchLoop_event _ _ _ _ _ Hout). exact IH.
Qed.

(** C10. On a slice of [N] devices, the accesses of the handler (index
    [nextDevice] in the [Create] branch, [nextDevice - 1] in the [Remove]
    branch) are within bounds when the watermark is in [[0, N]], and some
    event leads to an access out of [[0, N - 1]] when it is not.
    [listDevice] sets the watermark to the number of directory entries as
    it is; with more than [N] entries the first event handled by the
    [Remove] branch, whatever number of other events precedes it, accesses
    index [count - 1 >= N] and the watcher crashes. *)
Theorem watcher_access_bounds :
  forall (s : MultusNicServer) (event : Event) (dir : list string)
         (pre : list Event) (r : Event) (post : list Event),
    length (devices s) = 40%nat ->
    TotalDevicesCount < Z.of_nat (length dir) ->
    Forall (fun e => removeOnly e = false) pre ->
    removeOnly r = true ->
    (0 <= nextDevice s <= TotalDevicesCount ->
       forall i len, handleEvent s event <> Panic (IndexOutOfRange i len)) /\
    (~ 0 <= nextDevice s <= TotalDevicesCount ->
       exists e i, handleEvent s e = Panic (IndexOutOfRange i 40) /\
                   ~ 0 <= i <= TotalDevicesCount - 1) /\
    listDevice (dir, None) NewMultusNicServer
    = Ok (serverFor (Z.of_nat (length dir)), None) /\
    nextDevice (serverFor (Z.of_nat (length dir))) = Z.of_nat (length dir) /\
    fst (watchLoop (serverFor (Z.of_nat (length dir))) (deliver (pre ++ r :: post)))
    = Crashed (IndexOutOfRange (Z.of_nat (length dir) - 1) 40) /\
    TotalDevicesCount <= Z.of_nat (length dir) - 1.
Proof.
  intros s event dir pre r post Hlen Hdir Hpre Hr.
  split; [|split; [|split; [|split; [|split]]]].
  - intros Hn. now apply handleEvent_in_bounds.
  - intros Hn. unfold TotalDevicesCount in *.
    destruct (decide (nextDevice s < 0)) as [Hneg|Hpos].
    + exists createEvent, (nextDevice s). split; [|lia].
      rewrite handleEvent_create_negative by (assumption || reflexivity).
      now rewrite Hlen.
    + exists removeEvent, (nextDevice s - 1). split; [|lia].
      rewrite handleEvent_remove_overfull by (reflexivity || lia).
      now rewrite Hlen.
  - now apply listDevice_ok.
  - reflexivity.
  - now apply watchLoop_overfull_remove.
  - lia.
Qed.

Lemma watcher_access_bounds_witness :
  fst (watchLoop (serverFor (Z.of_nat (length (dirOf 41))))
         (deliver ([createEvent] ++ removeEvent :: [])))
  = Crashed (IndexOutOfRange (Z.of_nat (length (dirOf 41)) - 1) 40).
Proof.
  apply (watcher_access_bounds (serverFor 3) createEvent (dirOf 41)
           [createEvent] removeEvent []).
  - reflexivity.
  - vm_compute. reflexivity.
  - repeat constructor.
  - reflexivity.
Defined.

(** * Further properties *)

(** ** The serve loop, whatever the timing *)

Lemma serveLoop_app (a b : list ServeReturn) :
  forall st : RestartState,
    serveLoop st (a ++ b)
    = match serveLoop st a with
      | Serving st' => serveLoop st' b
      | other => other
      end.
Proof.
  induction a as [|r a IH]; intros st; [reflexivity|].
  destruct r as [|err tSince tNow]; cbn [app serveLoop]; [reflexivity|].
  destruct (5 <? restartCount st); [reflexivity | apply IH].
Qed.

Lemma serveLoop_counter (rets : list ServeReturn) :
  forall st : RestartState,
    0 <= restartCount st <= 6 ->
    match serveLoop st rets with
    | Serving st' | ServeStopped st' =>
        0 <= restartCount st' <= 6 /\
        restartCount st' <= Z.max 1 (restartCount st + Z.of_nat (length rets))
    | ServeFatal => 7 <= restartCount st + Z.of_nat (length rets)
    end.
Proof.
  induction rets as [|r rets IH]; intros st Hst.
  - cbn [serveLoop length]. lia.
  - destruct r as [|err tSince tNow]; cbn [serveLoop length].
    + lia.
    + destruct (Z.ltb_spec 5 (restartCount st)); [lia|].
      set (st1 := {| lastCrashTime := tNow;
                     restartCount := if Seconds_gt_3600 (tSince - lastCrashTime st)
                                     then 1 else restartCount st + 1 |}).
      assert (H1 : 1 <= restartCount st1 <= restartCount st + 1 \/
                   (restartCount st1 = 1))
        by (subst st1; cbn; destruct (Seconds_gt_3600 _); lia).
      specialize (IH st1 ltac:(lia)).
      destruct (serveLoop st1 rets); lia.
Qed.

(** X11. Whatever the times of the failures, the restart counter of the
    serve loop stays within [[0, 6]] and never exceeds the number of
    [Serve] returns so far, and the loop does not exit fatally before the
    seventh return of [Serve]. *)
Theorem serveLoop_counter_bounds :
  forall (t0 : Z) (rets : list ServeReturn),
    match serveGoroutine t0 rets with
    | Serving st | ServeStopped st =>
        0 <= restartCount st <= 6 /\
        restartCount st <= Z.of_nat (length rets)
    | ServeFatal => (7 <= length rets)%nat
    end.
Proof.
  intros t0 rets. unfold serveGoroutine.
  pose proof (serveLoop_counter rets {| lastCrashTime := t0; restartCount := 0 |}
                ltac:(cbn; lia)) as H.
  cbn [restartCount] in H.
  destruct rets as [|r rets]; [cbn; lia|].
  destruct (serveLoop _ (r :: rets)); cbn [length] in *; lia.
Qed.

(** X12. The counter is tested before the time since the last crash is
    looked at: after a first failure at any time and five more failures each
    within one hour of the previous one, the next failure is fatal however
    long the server has been serving before it. *)
Theorem serveLoop_seventh_failure_fatal :
  forall (t0 : Z) (e1 : error) (a1 b1 : Z) (rets : list ServeReturn)
         (e7 : error) (a7 b7 : Z) (rest : list ServeReturn),
    rapidCrashes b1 rets ->
    length rets = 5%nat ->
    serveGoroutine t0
      (ServeErr e1 a1 b1 :: rets ++ ServeErr e7 a7 b7 :: rest)
    = ServeFatal.
Proof.
  intros t0 e1 a1 b1 rets e7 a7 b7 rest Hrapid Hlen.
  unfold serveGoroutine. cbn [serveLoop restartCount lastCrashTime].
  change (5 <? 0) with false. cbv iota.
  assert (Hone : (if Seconds_gt_3600 (a1 - t0) then 1 else 0 + 1) = 1)
    by (destruct (Seconds_gt_3600 _); reflexivity).
  rewrite Hone, serveLoop_app.
  pose proof (serveLoop_rapid rets {| lastCrashTime := b1; restartCount := 1 |})
    as Hloop.
  cbn [lastCrashTime restartCount] in Hloop.
  destruct (Hloop Hrapid ltac:(lia)) as [[t Ht] _]; [lia|].
  rewrite Ht, Hlen. reflexivity.
Qed.

Lemma serveLoop_seventh_failure_fatal_witness :
  serveGoroutine 0
    (ServeErr "serve" (5000 * Second) (5000 * Second)
       :: ((fun k => ServeErr "serve" (k * Second) (k * Second))
             <$> [5001; 5002; 5003; 5004; 5005])
       ++ ServeErr "serve" (90000 * Second) (90000 * Second) :: [])
  = ServeFatal.
Proof.
  apply (serveLoop_seventh_failure_fatal 0 "serve" (5000 * Second) (5000 * Second)
           ((fun k => ServeErr "serve" (k * Second) (k * Second))
              <$> [5001; 5002; 5003; 5004; 5005])
           "serve" (90000 * Second) (90000 * Second) []).
  - simpl. unfold Second. lia.
  - reflexivity.
Defined.

Lemma serveLoop_slow (rets : list ServeReturn) :
  forall st : RestartState,
    slowCrashes (lastCrashTime st) rets ->
    restartCount st <= 5 ->
    rets <> [] ->
    exists t, serveLoop st rets = Serving {| lastCrashTime := t; restartCount := 1 |}.
Proof.
  induction rets as [|r rets IH]; intros st Hslow Hcnt Hne; [congruence|].
  destruct r as [|err tSince tNow]; [destruct Hslow|].
  destruct Hslow as [Hgt Hrest]. cbn [serveLoop].
  replace (5 <? restartCount st) with false by (symmetry; apply Z.ltb_ge; lia).
  unfold Seconds_gt_3600.
  replace (3600 * Second <? tSince - lastCrashTime st) with true
    by (symmetry; apply Z.ltb_lt; lia).
  destruct rets as [|r' rets].
  - exists tNow. reflexivity.
  - apply IH; cbn [lastCrashTime restartCount]; [exact Hrest | lia | discriminate].
Qed.

(** X13. A server whose failures each come more than one hour after the
    previous one (after the start of the loop, for the first) is restarted
    every time: the loop is serving again with the counter at 1, however
    many failures there have been. *)
Theorem serveLoop_slow_crashes_restart :
  forall (t0 : Z) (rets : list ServeReturn),
    slowCrashes t0 rets ->
    rets <> [] ->
    exists t, serveGoroutine t0 rets
              = Serving {| lastCrashTime := t; restartCount := 1 |}.
Proof.
  intros t0 rets Hslow Hne. unfold serveGoroutine.
  apply serveLoop_slow; cbn [lastCrashTime restartCount]; [exact Hslow | lia | exact Hne].
Qed.

Lemma serveLoop_slow_crashes_restart_witness :
  exists t,
    serveGoroutine 0
      ((fun k => ServeErr "serve" (k * 4000 * Second) (k * 4000 * Second))
         <$> [1; 2; 3; 4; 5; 6; 7; 8])
    = Serving {| lastCrashTime := t; restartCount := 1 |}.
Proof.
  apply (serveLoop_slow_crashes_restart 0
           ((fun k => ServeErr "serve" (k * 4000 * Second) (k * 4000 * Second))
              <$> [1; 2; 3; 4; 5; 6; 7; 8])).
  - simpl. unfold Second. lia.
  - discriminate.
Defined.

(** ** ListAndWatch, session by session *)

Lemma ListAndWatch_loop_no_error (send : nat -> option error)
    (sels : list SessionSelect) (err : error) :
  forall k : nat,
    snd (ListAndWatch_loop send k sels) <> SessionReturned (Some err).
Proof.
  induction sels as [|sel sels IH]; intros k; [discriminate|].
  destruct sel as [s|]; cbn [ListAndWatch_loop]; [|discriminate].
  specialize (IH (S k)). now destruct (ListAndWatch_loop send (S k) sels).
Qed.

(** X14. The handler returns an error exactly when the initial [Send]
    fails, and then that error: no outcome of the later [Send]s or of the
    [select]s makes it return one. *)
Theorem ListAndWatch_error_iff_initial_send :
  forall (s : MultusNicServer) (send : nat -> option error)
         (sels : list SessionSelect) (err : error),
    snd (ListAndWatch s send sels) = SessionReturned (Some err)
    <-> send 0%nat = Some err.
Proof.
  intros s send sels err. unfold ListAndWatch.
  destruct (send 0%nat) as [err0|] eqn:H0; cbn [snd].
  - split; intros H; congruence.
  - pose proof (ListAndWatch_loop_no_error send sels err 1) as Hloop.
    destruct (ListAndWatch_loop send 1 sels). cbn [snd] in *.
    split; intros H; [contradiction | discriminate].
Qed.

Lemma ListAndWatch_loop_notifications (send : nat -> option error)
    (states : list MultusNicServer) (rest : list SessionSelect) :
  forall k : nat,
    ListAndWatch_loop send k ((RecvNotify <$> states) ++ rest)
    = (zip (devices <$> states) (send <$> seq k (length states))
         ++ fst (ListAndWatch_loop send (k + length states) rest),
       snd (ListAndWatch_loop send (k + length states) rest)).
Proof.
  induction states as [|st states IH]; intros k.
  - cbn. rewrite Nat.add_0_r. now destruct (ListAndWatch_loop send k rest).
  - cbn [fmap list_fmap app ListAndWatch_loop length seq zip zip_with].
    rewrite IH. replace (S k + length states)%nat with (k + S (length states))%nat by lia.
    reflexivity.
Qed.

(** X15. When the initial [Send] succeeds, a session that receives the
    notifications of the states [states] and is then cancelled has called
    [Send] once per notification after the initial call, each time with the
    device list of the server at that moment, has ignored what these calls
    returned, and returns nil; what follows the cancellation is not looked
    at.  Before the cancellation the same calls have been made and the
    handler is waiting. *)
Theorem ListAndWatch_sends_one_list_per_notification :
  forall (s : MultusNicServer) (send : nat -> option error)
         (states : list MultusNicServer) (post : list SessionSelect),
    send 0%nat = None ->
    ListAndWatch s send ((RecvNotify <$> states) ++ SessionCtxDone :: post)
    = (zip (devices s :: (devices <$> states))
           (send <$> seq 0 (S (length states))),
       SessionReturned None) /\
    ListAndWatch s send (RecvNotify <$> states)
    = (zip (devices s :: (devices <$> states))
           (send <$> seq 0 (S (length states))),
       SessionWaiting).
Proof.
  intros s send states post H0. unfold ListAndWatch. rewrite H0. split.
  - rewrite ListAndWatch_loop_notifications. cbn [ListAndWatch_loop fst snd].
    rewrite app_nil_r. cbn [seq fmap list_fmap zip zip_with]. now rewrite H0.
  - rewrite <- (app_nil_r (RecvNotify <$> states)) at 1.
    rewrite ListAndWatch_loop_notifications. cbn [ListAndWatch_loop fst snd].
    rewrite app_nil_r. cbn [seq fmap list_fmap zip zip_with]. now rewrite H0.
Qed.

Lemma ListAndWatch_sends_one_list_per_notification_witness :
  ListAndWatch (serverFor 3) (secondSendFails "broken pipe")
    ((RecvNotify <$> [serverFor 4; serverFor 3]) ++ SessionCtxDone :: [])
  = (zip (devices (serverFor 3) :: (devices <$> [serverFor 4; serverFor 3]))
         (secondSendFails "broken pipe" <$> seq 0 3),
     SessionReturned None).
Proof.
  apply (ListAndWatch_sends_one_list_per_notification (serverFor 3)
           (secondSendFails "broken pipe") [serverFor 4; serverFor 3] []).
  reflexivity.
Defined.

(** ** listDevice: the slice it needs, the devices it builds *)

Lemma for_each_listDevice_short (next : Z) (post : list (option Device)) :
  forall (pre : list (option Device)) (k : Z),
    Z.of_nat (length post) < k ->
    for_each (listDevice_body next) (seqZ (Z.of_nat (length pre)) k) (pre ++ post)
    = Panic (IndexOutOfRange (Z.of_nat (length pre + length post))
                             (length pre + length post)).
Proof.
  induction post as [|d post IH]; intros pre k Hk.
  - rewrite seqZ_cons by (cbn [length] in Hk; lia). cbn [for_each].
    unfold listDevice_body, storeDevice. rewrite app_nil_r. cbn [length].
    rewrite Nat.add_0_r.
    replace (Z.of_nat (length pre) <? Z.of_nat (length pre)) with false
      by (symmetry; apply Z.ltb_ge; lia).
    rewrite andb_false_r. reflexivity.
  - cbn [length] in Hk. rewrite seqZ_cons by lia.
    cbn [for_each]. rewrite listDevice_body_store. cbn [bind].
    specialize (IH (pre ++ [Some (deviceAt next (Z.of_nat (length pre)))]) (Z.pred k)).
    rewrite length_app in IH. cbn [length] in IH.
    replace (Z.of_nat (length pre + 1)) with (Z.succ (Z.of_nat (length pre))) in IH by lia.
    rewrite IH by lia. cbn [length]. do 2 f_equal; lia.
Qed.

(** X1. [listDevice] writes the slots 0 to 39 of [s.devices] and relies on
    the slice made by [NewMultusNicServer]: on a server whose slice has
    fewer than 40 slots it panics, at the first index past the slice,
    whatever the directory holds. *)
Theorem listDevice_short_slice_panics :
  forall (dir : list string) (s : MultusNicServer),
    (length (devices s) < 40)%nat ->
    listDevice (dir, None) s
    = Panic (IndexOutOfRange (Z.of_nat (length (devices s))) (length (devices s))).
Proof.
  intros dir s Hlen. unfold listDevice. cbn [fst snd].
  pose proof (for_each_listDevice_short (Z.of_nat (length dir)) (devices s) []
                TotalDevicesCount) as Hloop.
  cbn [length app] in Hloop. change (Z.of_nat 0) with 0 in Hloop.
  rewrite Hloop by (unfold TotalDevicesCount; lia). reflexivity.
Qed.

Lemma listDevice_short_slice_panics_witness :
  listDevice (dirOf 2, None) {| devices := replicate 7 None; nextDevice := 0 |}
  = Panic (IndexOutOfRange 7 7).
Proof.
  apply (listDevice_short_slice_panics (dirOf 2)
           {| devices := replicate 7 None; nextDevice := 0 |}).
  simpl. lia.
Defined.

(** X2. Whatever the directory holds, the devices that [listDevice] builds
    carry the decimal numerals of their indices as IDs, so no two of the 40
    devices share an ID. *)
Theorem listDevice_ids_distinct :
  forall (dir : list string) (s : MultusNicServer) (i j : nat) (di dj : Device),
    listDevice (dir, None) NewMultusNicServer = Ok (s, None) ->
    devices s !! i = Some (Some di) ->
    devices s !! j = Some (Some dj) ->
    ID di = Itoa (Z.of_nat i) /\ (ID di = ID dj -> i = j).
Proof.
  intros dir s i j di dj Hinit Hi Hj.
  rewrite listDevice_ok in Hinit by reflexivity. injection Hinit as <-.
  cbn [devices serverFor] in Hi, Hj.
  assert (Hil : (i < 40)%nat)
    by (apply lookup_lt_Some in Hi; now rewrite length_registryOf in Hi).
  assert (Hjl : (j < 40)%nat)
    by (apply lookup_lt_Some in Hj; now rewrite length_registryOf in Hj).
  rewrite lookup_registryOf in Hi, Hj by assumption.
  injection Hi as <-. injection Hj as <-. cbn [deviceAt ID].
  split; [reflexivity|].
  unfold Itoa. intros Heq. apply (inj pretty) in Heq. lia.
Qed.

Lemma listDevice_ids_distinct_witness :
  ID {| ID := "7"; Health := Healthy |} = Itoa (Z.of_nat 7) /\
  (ID {| ID := "7"; Health := Healthy |} = ID {| ID := "7"; Health := Healthy |}
   -> 7%nat = 7%nat).
Proof.
  apply (listDevice_ids_distinct (dirOf 3) (serverFor 3) 7 7
           {| ID := "7"; Health := Healthy |} {| ID := "7"; Health := Healthy |});
    vm_compute; reflexivity.
Defined.

Lemma healthCount_registry (n : Z) (len : nat) :
  forall a : Z,
    healthCount Unhealthy
      ((fun i => Some (deviceAt n i)) <$> seqZ a (Z.of_nat len))
    = Z.to_nat (Z.max 0 (Z.min (n - a) (Z.of_nat len))) /\
    healthCount Healthy
      ((fun i => Some (deviceAt n i)) <$> seqZ a (Z.of_nat len))
    = (len - Z.to_nat (Z.max 0 (Z.min (n - a) (Z.of_nat len))))%nat.
Proof.
  unfold healthCount.
  induction len as [|len IH]; intros a.
  - rewrite seqZ_nil by lia. cbn [fmap list_fmap]. rewrite !filter_nil.
    cbn [length]. split; lia.
  - rewrite seqZ_cons by lia.
    replace (Z.pred (Z.of_nat (S len))) with (Z.of_nat len) by lia.
    cbn [fmap list_fmap]. rewrite !filter_cons.
    destruct (IH (Z.succ a)) as [IHu IHh].
    destruct (Z.ltb_spec a n) as [Hlt|Hge].
    + assert (Hd : deviceAt n a = {| ID := Itoa a; Health := Unhealthy |}).
      { unfold deviceAt. replace (a <? n) with true
          by (symmetry; apply Z.ltb_lt; lia). reflexivity. }
      rewrite !Hd. cbn [fmap option_fmap option_map Health].
      rewrite decide_True by reflexivity.
      rewrite decide_False by discriminate.
      cbn [length]. rewrite IHu, IHh. split; lia.
    + assert (Hd : deviceAt n a = {| ID := Itoa a; Health := Healthy |}).
      { unfold deviceAt. replace (a <? n) with false
          by (symmetry; apply Z.ltb_ge; lia). reflexivity. }
      rewrite !Hd. cbn [fmap option_fmap option_map Health].
      rewrite decide_False by discriminate.
      rewrite decide_True by reflexivity.
      cbn [length]. rewrite IHu, IHh. split; lia.
Qed.

Lemma healthCount_registryOf (n : Z) :
  healthCount Unhealthy (registryOf n) = Z.to_nat (Z.max 0 (Z.min n 40)) /\
  healthCount Healthy (registryOf n) = (40 - Z.to_nat (Z.max 0 (Z.min n 40)))%nat.
Proof.
  pose proof (healthCount_registry n 40 0) as H.
  rewrite Z.sub_0_r in H. exact H.
Qed.

(** X3. At startup the node agent is shown [min(count, 40)] Unhealthy
    devices and [40 - min(count, 40)] Healthy ones, [count] being the number
    of directory entries: with more than 40 entries every device is
    Unhealthy, though the watermark, and the count of available devices
    that is logged from it, go on past the registry. *)
Theorem listDevice_health_counts :
  forall dir : list string,
    exists s : MultusNicServer,
      listDevice (dir, None) NewMultusNicServer = Ok (s, None) /\
      healthCount Unhealthy (devices s)
      = Z.to_nat (Z.min (Z.of_nat (length dir)) TotalDevicesCount) /\
      healthCount Healthy (devices s)
      = Z.to_nat (TotalDevicesCount - Z.min (Z.of_nat (length dir)) TotalDevicesCount) /\
      nextDevice s = Z.of_nat (length dir).
Proof.
  intros dir. exists (serverFor (Z.of_nat (length dir))).
  split; [now apply listDevice_ok|].
  cbn [devices nextDevice serverFor].
  destruct (healthCount_registryOf (Z.of_nat (length dir))) as [Hu Hh].
  rewrite Hu, Hh. unfold TotalDevicesCount. repeat split; lia.
Qed.

(** ** The watcher as a saturating counter *)

Lemma handleEvent_countStep (n : Z) (event : Event) :
  0 <= n <= 40 ->
  0 <= countStep n event <= 40 /\
  exists out,
    handleEvent (serverFor n) event = Ok (serverFor (countStep n event), out).
Proof.
  intros Hn. unfold countStep, TotalDevicesCount.
  destruct (isCreate event) eqn:Hc; [|destruct (isRemove event) eqn:Hr].
  - split; [lia|]. destruct (decide (n < 40)) as [Hlt|Hge].
    + rewrite handleEvent_create_below by (assumption || lia).
      replace (Z.min (n + 1) 40) with (n + 1) by lia. eauto.
    + rewrite handleEvent_create_full
        by (assumption || (cbn; unfold TotalDevicesCount; lia)).
      replace (Z.min (n + 1) 40) with n by lia. eauto.
  - assert (Hro : removeOnly event = true) by (unfold removeOnly; now rewrite Hc, Hr).
    split; [lia|]. destruct (decide (0 < n)) as [Hgt|Hle].
    + rewrite handleEvent_remove_above by (assumption || lia).
      replace (Z.max (n - 1) 0) with (n - 1) by lia. eauto.
    + rewrite handleEvent_remove_empty by (assumption || (cbn; lia)).
      replace (Z.max (n - 1) 0) with n by lia. eauto.
  - split; [lia|]. rewrite handleEvent_other by assumption. eauto.
Qed.

Lemma watchLoop_countStep (events : list Event) :
  forall n : Z,
    0 <= n <= 40 ->
    0 <= foldl countStep n events <= 40 /\
    fst (watchLoop (serverFor n) (deliver events))
    = Looping (serverFor (foldl countStep n events)).
Proof.
  induction events as [|event events IH]; intros n Hn.
  - split; [exact Hn | reflexivity].
  - destruct (handleEvent_countStep n event Hn) as (Hn1 & out & Hstep).
    cbn [foldl deliver fmap list_fmap]. rewrite (watchLoop_event _ _ _ _ _ Hstep).
    apply IH. exact Hn1.
Qed.

(** X4. Started on a directory of at most 40 entries, the watcher never
    crashes, and after any sequence of events its watermark is the
    saturating count of them (plus one per create event up to 40, minus one
    per remove event down to 0, from the number of entries at startup); the
    registry is again the one of that watermark. *)
Theorem watcher_is_saturating_counter :
  forall (dir : list string) (events : list Event),
    Z.of_nat (length dir) <= TotalDevicesCount ->
    exists s0 s' : MultusNicServer,
      listDevice (dir, None) NewMultusNicServer = Ok (s0, None) /\
      fst (watchLoop s0 (deliver events)) = Looping s' /\
      nextDevice s' = foldl countStep (Z.of_nat (length dir)) events /\
      registry_inv s'.
Proof.
  intros dir events Hdir. unfold TotalDevicesCount in Hdir.
  destruct (watchLoop_countStep events (Z.of_nat (length dir)) ltac:(lia))
    as [Hn Hrun].
  exists (serverFor (Z.of_nat (length dir))),
         (serverFor (foldl countStep (Z.of_nat (length dir)) events)).
  split; [now apply listDevice_ok|]. split; [exact Hrun|].
  split; [reflexivity|]. apply serverFor_registry_inv. exact Hn.
Qed.

Lemma watcher_is_saturating_counter_witness :
  exists s0 s' : MultusNicServer,
    listDevice (dirOf 39, None) NewMultusNicServer = Ok (s0, None) /\
    fst (watchLoop s0 (deliver [createEvent; createEvent; removeEvent])) = Looping s' /\
    nextDevice s'
    = foldl countStep (Z.of_nat (length (dirOf 39)))
            [createEvent; createEvent; removeEvent] /\
    registry_inv s'.
Proof.
  apply (watcher_is_saturating_counter (dirOf 39)
           [createEvent; createEvent; removeEvent]).
  vm_compute. discriminate.
Defined.

(** X5. Started on a directory of at most 40 entries, after any sequence of
    events the number of Unhealthy devices is the watermark and the number
    of Healthy devices is [40 - watermark]: the used and available counts
    that the watcher logs are the counts of the devices shown to the node
    agent. *)
Theorem watcher_health_counts :
  forall (dir : list string) (events : list Event) (s0 s' : MultusNicServer),
    Z.of_nat (length dir) <= TotalDevicesCount ->
    listDevice (dir, None) NewMultusNicServer = Ok (s0, None) ->
    fst (watchLoop s0 (deliver events)) = Looping s' ->
    healthCount Unhealthy (devices s') = Z.to_nat (nextDevice s') /\
    healthCount Healthy (devices s') = Z.to_nat (TotalDevicesCount - nextDevice s').
Proof.
  intros dir events s0 s' Hdir Hinit Hrun. unfold TotalDevicesCount in *.
  rewrite listDevice_ok in Hinit by reflexivity. injection Hinit as <-.
  destruct (watchLoop_countStep events (Z.of_nat (length dir)) ltac:(lia))
    as [Hn Hrun'].
  rewrite Hrun' in Hrun. injection Hrun as <-.
  cbn [devices nextDevice serverFor].
  destruct (healthCount_registryOf (foldl countStep (Z.of_nat (length dir)) events))
    as [Hu Hh].
  rewrite Hu, Hh. split; lia.
Qed.

Lemma watcher_health_counts_witness :
  healthCount Unhealthy (devices (serverFor 4)) = Z.to_nat (nextDevice (serverFor 4)) /\
  healthCount Healthy (devices (serverFor 4))
  = Z.to_nat (TotalDevicesCount - nextDevice (serverFor 4)).
Proof.
  apply (watcher_health_counts (dirOf 3) [createEvent] (serverFor 3) (serverFor 4)).
  - vm_compute. discriminate.
  - vm_compute. reflexivity.
  - vm_compute. reflexivity.
Defined.

(** ** What the watcher touches, from any state *)

Lemma setHealth_ok (devs devs' : list (option Device)) (i : Z) (h : string) :
  setHealth devs i h = Ok devs' ->
  0 <= i < Z.of_nat (length devs) /\
  exists d, devs !! Z.to_nat i = Some (Some d) /\
            devs' = <[Z.to_nat i := Some {| ID := ID d; Health := h |}]> devs.
Proof.
  unfold setHealth.
  destruct (Z.leb_spec 0 i), (Z.ltb_spec i (Z.of_nat (length devs)));
    cbn [andb]; try discriminate.
  destruct (devs !! Z.to_nat i) as [[d|]|] eqn:Hd; try discriminate.
  intros [= <-]. split; [lia|]. exists d. split; reflexivity.
Qed.

Lemma setHealth_deviceIDs (devs devs' : list (option Device)) (i : Z) (h : string) :
  setHealth devs i h = Ok devs' -> deviceIDs devs' = deviceIDs devs.
Proof.
  intros H. destruct (setHealth_ok _ _ _ _ H) as (_ & d & Hd & ->).
  unfold deviceIDs. rewrite list_fmap_insert. apply list_insert_id.
  rewrite list_lookup_fmap, Hd. reflexivity.
Qed.

Lemma handleEvent_ok (s s' : MultusNicServer) (event : Event) (out : list Output) :
  handleEvent s event = Ok (s', out) ->
  (s' = s \/
   exists i devs,
     setHealth (devices s) (Z.min (nextDevice s) (nextDevice s'))
               (if isCreate event then Unhealthy else Healthy) = Ok devs /\
     devices s' = devs /\ i = nextDevice s' /\
     (i = nextDevice s + 1 \/ i = nextDevice s - 1)) /\
  notifications out = if notifying event then [true] else [].
Proof.
  unfold handleEvent, notifying.
  destruct (isCreate event); [|destruct (isRemove event)]; cbn [orb].
  - destruct (Z.ltb_spec (nextDevice s) TotalDevicesCount).
    + destruct (setHealth (devices s) (nextDevice s) Unhealthy) as [devs|p] eqn:Hset;
        cbn [bind]; [|discriminate].
      intros [= <- <-]. split; [|reflexivity]. right.
      exists (nextDevice s + 1), devs. cbn [nextDevice devices].
      replace (Z.min (nextDevice s) (nextDevice s + 1)) with (nextDevice s) by lia.
      repeat split; auto.
    + cbn [bind]. intros [= <- <-]. split; [now left | reflexivity].
  - destruct (Z.ltb_spec 0 (nextDevice s)).
    + destruct (setHealth (devices s) (nextDevice s - 1) Healthy) as [devs|p] eqn:Hset;
        cbn [bind]; [|discriminate].
      intros [= <- <-]. split; [|reflexivity]. right.
      exists (nextDevice s - 1), devs. cbn [nextDevice devices].
      replace (Z.min (nextDevice s) (nextDevice s - 1)) with (nextDevice s - 1) by lia.
      repeat split; auto.
    + cbn [bind]. intros [= <- <-]. split; [now left | reflexivity].
  - intros [= <- <-]. split; [now left | reflexivity].
Qed.

Lemma watchLoop_deviceIDs (sels : list Select) :
  forall s : MultusNicServer,
    match fst (watchLoop s sels) with
    | Looping s' | Returned s' => deviceIDs (devices s') = deviceIDs (devices s)
    | Crashed _ => True
    end.
Proof.
  induction sels as [|sel sels IH]; intros s; [reflexivity|].
  destruct sel as [event [|]|err [|]|]; cbn [watchLoop negb].
  - destruct (handleEvent s event) as [[s1 out]|p] eqn:Hstep; [|exact I].
    specialize (IH s1). destruct (watchLoop s1 sels) as [st out']. cbn [fst] in *.
    assert (Hids : deviceIDs (devices s1) = deviceIDs (devices s)).
    { destruct (handleEvent_ok _ _ _ _ Hstep) as [[->|(i & devs & Hset & <- & _)] _];
        [reflexivity | exact (setHealth_deviceIDs _ _ _ _ Hset)]. }
    destruct st; [congruence | congruence | exact I].
  - apply IH.
  - specialize (IH s). now destruct (watchLoop s sels).
  - reflexivity.
  - apply IH.
Qed.

(** X6. From any state of the slice, the watcher writes the [Health] field
    only: as long as it has not crashed, the slice has the same number of
    slots, the same nil slots and the same device IDs as when it started,
    whatever it received. *)
Theorem watcher_never_changes_ids :
  forall (s : MultusNicServer) (sels : list Select),
    match fst (watchLoop s sels) with
    | Looping s' | Returned s' =>
        deviceIDs (devices s') = deviceIDs (devices s) /\
        length (devices s') = length (devices s)
    | Crashed _ => True
    end.
Proof.
  intros s sels. pose proof (watchLoop_deviceIDs sels s) as H.
  destruct (fst (watchLoop s sels)) as [s'|s'|p]; [| |exact I];
    (split; [exact H|]); apply (f_equal length) in H;
    unfold deviceIDs in H; now rewrite !length_fmap in H.
Qed.

(** X7. From any state, handling one event moves the watermark by at most
    one; if the watermark does not move the server is unchanged, and if it
    moves the only slot written is the one at the lower of the two
    watermarks. *)
Theorem handleEvent_touches_one_slot :
  forall (s s' : MultusNicServer) (event : Event) (out : list Output) (i : nat),
    handleEvent s event = Ok (s', out) ->
    -1 <= nextDevice s' - nextDevice s <= 1 /\
    (nextDevice s' = nextDevice s -> s' = s) /\
    (Z.of_nat i <> Z.min (nextDevice s) (nextDevice s') ->
     devices s' !! i = devices s !! i).
Proof.
  intros s s' event out i Hstep.
  destruct (handleEvent_ok _ _ _ _ Hstep) as [[->|(n & devs & Hset & <- & -> & Hn)] _].
  - repeat split; (lia || reflexivity).
  - destruct (setHealth_ok _ _ _ _ Hset) as (Hrange & d & Hd & Hdevs).
    split; [lia|]. split; [lia|].
    intros Hi. rewrite Hdevs. apply list_lookup_insert_ne. lia.
Qed.

Lemma handleEvent_touches_one_slot_witness :
  devices (serverFor 4) !! 7%nat = devices (serverFor 3) !! 7%nat.
Proof.
  apply (handleEvent_touches_one_slot (serverFor 3) (serverFor 4) createEvent
           [LogDeviceEvent createEvent; Notify true; LogCounts 36 4 40] 7).
  - vm_compute. reflexivity.
  - vm_compute. discriminate.
Defined.

(** ** Notifications and the end of the watch loop *)

Lemma notifications_app (a b : list Output) :
  notifications (a ++ b) = notifications a ++ notifications b.
Proof.
  unfold notifications. apply omap_app.
Qed.

(** X8. While the watcher has neither crashed nor returned, it has sent
    exactly one [true] on the notify channel for each event received whose
    [Op] has the [Create] or the [Remove] bit, whether or not the event
    changed the registry, and nothing for any other event, error or
    cancellation. *)
Theorem watchLoop_one_notification_per_event :
  forall (sels : list Select) (s s' : MultusNicServer) (out : list Output),
    watchLoop s sels = (Looping s', out) ->
    notifications out
    = replicate (length (filter (fun event => notifying event = true) (received sels)))
                true.
Proof.
  induction sels as [|sel sels IH]; intros s s' out Hrun.
  - cbn in Hrun. injection Hrun as <- <-. reflexivity.
  - destruct sel as [event [|]|err [|]|]; cbn [watchLoop negb] in Hrun;
      cbn [received omap list_omap]; fold (received sels).
    + destruct (handleEvent s event) as [[s1 out1]|p] eqn:Hstep; [|discriminate].
      destruct (watchLoop s1 sels) as [st out'] eqn:Hrest.
      injection Hrun as -> <-.
      rewrite notifications_app, (IH _ _ _ Hrest).
      destruct (handleEvent_ok _ _ _ _ Hstep) as [_ ->].
      rewrite filter_cons. destruct (notifying event) eqn:Hn.
      * rewrite decide_True by reflexivity. reflexivity.
      * rewrite decide_False by discriminate. reflexivity.
    + exact (IH _ _ _ Hrun).
    + destruct (watchLoop s sels) as [st out'] eqn:Hrest.
      injection Hrun as -> <-. cbn. exact (IH _ _ _ Hrest).
    + discriminate.
    + exact (IH _ _ _ Hrun).
Qed.

Lemma watchLoop_one_notification_per_event_witness :
  notifications
    [LogDeviceEvent createEvent; Notify true; LogCounts 0 40 40;
     LogError "overflow";
     LogDeviceEvent removeEvent; Notify true; LogCounts 1 39 40]
  = replicate
      (length (filter (fun event => notifying event = true)
                 (received [RecvEvent createEvent true; RecvError "overflow" true;
                            CtxDone; RecvEvent removeEvent true])))
      true.
Proof.
  apply (watchLoop_one_notification_per_event
           [RecvEvent createEvent true; RecvError "overflow" true;
            CtxDone; RecvEvent removeEvent true]
           (serverFor 40) (serverFor 39)).
  vm_compute. reflexivity.
Defined.

(** X9. An event whose [Op] has neither the [Create] nor the [Remove] bit
    (a write, a rename, a chmod, or several of them at once) is logged and
    otherwise ignored, from any state: the server is unchanged and nothing
    is sent on the notify channel. *)
Theorem handleEvent_ignores_other_ops :
  forall (s : MultusNicServer) (event : Event),
    Z.land (Op event) (Z.lor Create Remove) = 0 ->
    handleEvent s event = Ok (s, [LogDeviceEvent event; logCounts s]).
Proof.
  intros s event Hbits. apply handleEvent_other.
  - unfold isCreate. apply Z.eqb_neq.
    replace Create with (Z.land (Z.lor Create Remove) Create) at 1 by reflexivity.
    rewrite Z.land_assoc, Hbits. discriminate.
  - unfold isRemove. apply Z.eqb_neq.
    replace Remove with (Z.land (Z.lor Create Remove) Remove) at 1 by reflexivity.
    rewrite Z.land_assoc, Hbits. discriminate.
Qed.

Lemma handleEvent_ignores_other_ops_witness :
  handleEvent (serverFor 3) {| Name := "nic0"; Op := Z.lor Rename Chmod |}
  = Ok (serverFor 3,
        [LogDeviceEvent {| Name := "nic0"; Op := Z.lor Rename Chmod |};
         logCounts (serverFor 3)]).
Proof.
  apply (handleEvent_ignores_other_ops (serverFor 3)
           {| Name := "nic0"; Op := Z.lor Rename Chmod |}).
  reflexivity.
Defined.

(** X10. The watch loop returns only on a receive from the closed error
    channel: if it has returned, such a receive is among the outcomes of
    its [select]s, and while it is looping none has occurred; no event, no
    error of the event source, no closure of the event channel and no
    cancellation ends it. *)
Theorem watchLoop_returns_only_on_closed_errors :
  forall (sels : list Select) (s : MultusNicServer),
    match fst (watchLoop s sels) with
    | Returned _ => exists err, In (RecvError err false) sels
    | Looping _ => forall err, ~ In (RecvError err false) sels
    | Crashed _ => exists event, In (RecvEvent event true) sels
    end.
Proof.
  induction sels as [|sel sels IH]; intros s.
  - cbn. intros err [].
  - destruct sel as [event [|]|err [|]|]; cbn [watchLoop negb].
    + destruct (handleEvent s event) as [[s1 out1]|p]; cbn [fst];
        [|exists event; now left].
      specialize (IH s1). destruct (watchLoop s1 sels) as [st out']. cbn [fst] in *.
      destruct st as [s2|s2|p].
      * intros err [Habs|Hin]; [discriminate | exact (IH err Hin)].
      * destruct IH as [err Hin]. exists err. now right.
      * destruct IH as [ev Hin]. exists ev. now right.
    + specialize (IH s). destruct (fst (watchLoop s sels)) as [s2|s2|p].
      * intros err [Habs|Hin]; [discriminate | exact (IH err Hin)].
      * destruct IH as [err Hin]. exists err. now right.
      * destruct IH as [ev Hin]. exists ev. now right.
    + specialize (IH s). destruct (watchLoop s sels) as [st out']. cbn [fst] in *.
      destruct st as [s2|s2|p].
      * intros err' [Habs|Hin]; [discriminate | exact (IH err' Hin)].
      * destruct IH as [err' Hin]. exists err'. now right.
      * destruct IH as [ev Hin]. exists ev. now right.
    + cbn [fst]. exists err. now left.
    + specialize (IH s). destruct (fst (watchLoop s sels)) as [s2|s2|p].
      * intros err [Habs|Hin]; [discriminate | exact (IH err Hin)].
      * destruct IH as [err Hin]. exists err. now right.
      * destruct IH as [ev Hin]. exists ev. now right.
Qed.

(** ** The start of Run *)

(** X16. Started on the server made by [NewMultusNicServer], [Run] gets to
    its serve loop exactly when the directory is read, the removal of the
    socket file succeeds or fails because the file does not exist, and
    [net.Listen] succeeds; the watcher is then running on the registry of
    the directory.  An unreadable directory ends the process; any other
    removal error and any [Listen] error are returned, with the watcher
    already started. *)
Theorem Run_bind_serves_iff :
  forall (entries : list string) (readErr : option error)
         (unlink : option (error * bool)) (listen : option error),
    let started := serverFor (Z.of_nat (length entries)) in
    (Run_bind (entries, readErr) unlink listen NewMultusNicServer = BindServes started
     <-> readErr = None /\
         (unlink = None \/ exists err, unlink = Some (err, true)) /\
         listen = None) /\
    (forall err, readErr = Some err ->
       Run_bind (entries, readErr) unlink listen NewMultusNicServer = BindFatal err) /\
    (forall err, readErr = None -> unlink = Some (err, false) ->
       Run_bind (entries, readErr) unlink listen NewMultusNicServer
       = BindReturns started err) /\
    (forall err, readErr = None ->
       (unlink = None \/ exists err', unlink = Some (err', true)) ->
       listen = Some err ->
       Run_bind (entries, readErr) unlink listen NewMultusNicServer
       = BindReturns started err).
Proof.
  intros entries readErr unlink listen started. subst started.
  destruct readErr as [rerr|].
  - assert (Hfatal : Run_bind (entries, Some rerr) unlink listen NewMultusNicServer
                     = BindFatal rerr) by reflexivity.
    rewrite Hfatal. split; [split; [discriminate | intros [H _]; discriminate]|].
    split; [intros err [= ->]; reflexivity|].
    split; intros err H; discriminate.
  - unfold Run_bind. rewrite Run_listDevice_ok.
    destruct unlink as [[uerr [|]]|], listen as [lerr|]; cbn [negb];
      repeat match goal with
             | |- _ /\ _ => split
             | |- _ <-> _ => split
             | |- forall _, _ => intro
             | H : _ /\ _ |- _ => destruct H
             | H : _ \/ _ |- _ => destruct H
             | H : exists _, _ |- _ => destruct H
             | H : Some _ = Some _ |- _ => injection H as H; subst
             | H : (_, _) = (_, _) |- _ => injection H as ? ?; subst
             end;
      try discriminate; try reflexivity; eauto.
Qed.

(** ** The watcher along the directory *)

Lemma countStep_in_range (events : list Event) :
  forall n : Z,
    0 <= n <= TotalDevicesCount ->
    staysInRange n events ->
    foldl countStep n events = n + foldr (fun event acc => eventDelta event + acc) 0 events.
Proof.
  induction events as [|event events IH]; intros n Hn Hin; cbn [foldl foldr].
  - lia.
  - destruct Hin as [Hstep Hrest].
    assert (Hc : countStep n event = n + eventDelta event).
    { unfold countStep, eventDelta in *.
      destruct (isCreate event); [|destruct (isRemove event)]; lia. }
    rewrite Hc, IH by assumption. lia.
Qed.

(** X17. Started on a directory of at most 40 entries, and as long as the
    number of entries implied by the events (one more per create event, one
    less per remove event) has stayed within [[0, 40]], the watermark is
    that number: the events may come in any order. *)
Theorem watcher_tracks_directory :
  forall (dir : list string) (events : list Event) (s0 s' : MultusNicServer),
    Z.of_nat (length dir) <= TotalDevicesCount ->
    staysInRange (Z.of_nat (length dir)) events ->
    listDevice (dir, None) NewMultusNicServer = Ok (s0, None) ->
    fst (watchLoop s0 (deliver events)) = Looping s' ->
    nextDevice s'
    = Z.of_nat (length dir) + foldr (fun event acc => eventDelta event + acc) 0 events.
Proof.
  intros dir events s0 s' Hdir Hin Hinit Hrun.
  rewrite listDevice_ok in Hinit by reflexivity. injection Hinit as <-.
  destruct (watchLoop_countStep events (Z.of_nat (length dir))) as [_ Hrun'];
    [unfold TotalDevicesCount in Hdir; lia|].
  rewrite Hrun' in Hrun. injection Hrun as <-. cbn [nextDevice serverFor].
  apply countStep_in_range; [lia | exact Hin].
Qed.

Lemma watcher_tracks_directory_witness :
  nextDevice (serverFor 3)
  = Z.of_nat (length (dirOf 3))
    + foldr (fun event acc => eventDelta event + acc) 0
            [removeEvent; createEvent; createEvent; removeEvent].
Proof.
  apply (watcher_tracks_directory (dirOf 3)
           [removeEvent; createEvent; createEvent; removeEvent]
           (serverFor 3) (serverFor 3)).
  - vm_compute. discriminate.
  - vm_compute. repeat split; discriminate.
  - vm_compute. reflexivity.
  - vm_compute. reflexivity.
Defined.
